(** * Recent_Site_Visits_Spreadsheet.py: the visit recency analyzer

    A shallow embedding of [analyze_site_visits_from_sheets] and of the
    helpers it calls, followed by the properties of the specification.

    What lies outside the script is taken as an input of the model:
    - what the calls to the credentials and sheet libraries come to
      ([sheet_response]): an exception raised while the credentials are
      loaded, an exception raised while the sheet is opened or read, or the
      records of the worksheet;
    - [pd.to_datetime], one batch parser per [format] argument
      ([to_datetime]), which either converts the whole column or raises; a
      converted cell is a timestamp or the missing value NaT;
    - the type that [pd.concat] gives the [Last_Visit_Date] column when a
      row without date is appended ([concat_dtype]);
    - the clock read by [datetime.now()] ([today]);
    - the order in which Python iterates over a [set] of strings ([slot],
      the position of each element in the hash table, which depends on how
      the set was built);
    - whether writing the workbook and printing the summary raises
      ([report_exception]).

    Timestamps are integers, in nanoseconds since 1970-01-01 00:00, the
    resolution pandas computes with.  A missing number (NaN) and a missing
    date (NaT or [None]) are [None].  The mean of a column is kept as an
    exact rational number, where the script computes a floating-point
    number. *)

From Stdlib Require Import ZArith QArith Ascii String List Permutation Sorted Lia.
From stdpp Require Import gmap strings list.

Close Scope Q_scope.
Open Scope string_scope.
Open Scope Z_scope.

(** ** Time *)

Definition NANOS_PER_DAY : Z := 86400 * 1000000000.

(** [Timedelta.days]: the whole days of a difference of timestamps, rounded
    towards minus infinity (a difference of minus one second has [-1] days). *)
Definition Timedelta_days (delta : Z) : Z := delta / NANOS_PER_DAY.

(** Days between 1970-01-01 and the civil date [y]-[m]-[d] of the proleptic
    Gregorian calendar, used to name timestamps by their calendar date. *)
Definition days_from_civil (y m d : Z) : Z :=
  let y' := if m <=? 2 then y - 1 else y in
  let era := y' / 400 in
  let yoe := y' - era * 400 in
  let mp := if m <=? 2 then m + 9 else m - 3 in
  let doy := (153 * mp + 2) / 5 + d - 1 in
  let doe := yoe * 365 + yoe / 4 - yoe / 100 + doy in
  era * 146097 + doe - 719468.

(** The timestamp of midnight at the start of a civil date. *)
Definition Timestamp (y m d : Z) : Z := days_from_civil y m d * NANOS_PER_DAY.

(** ** Exceptions and results *)

(** The exceptions of a run: those the analyzer's own statements raise, and
    any other class, by its name. *)
Inductive exception : Type :=
| KeyError (key : string)
| ValueError
| AttributeError
| OtherError (class : string).

Definition result (A : Type) : Type := (exception + A)%type.

Definition raise {A : Type} (e : exception) : result A := inl e.

Definition bind {A B : Type} (c : result A) (k : A → result B) : result B :=
  match c with
  | inl e => inl e
  | inr a => k a
  end.

Notation "'let!' x ':=' c 'in' k" := (bind c (fun x => k))
  (at level 10, x name, c at level 100, k at level 200).

(** [try: body except: handler], with a bare [except] that catches every
    exception. *)
Definition try_except {A : Type} (body handler : result A) : result A :=
  match body with
  | inl _ => handler
  | inr a => inr a
  end.

(** What a call leaves its caller with: a value, [None], or an exception. *)
Inductive outcome (A : Type) : Type :=
| Returns (a : A)
| ReturnsNone
| Raises (e : exception).
Arguments Returns {A} a.
Arguments ReturnsNone {A}.
Arguments Raises {A} e.

(** The outcome of a computation that runs to its end or raises. *)
Definition outcome_of {A : Type} (c : result A) : outcome A :=
  match c with
  | inl e => Raises e
  | inr a => Returns a
  end.

(** ** Frames *)

(** The two columns the analyzer reads; a column the sheet does not have is
    [None].  Cells are strings. *)
Record DataFrame : Type := {
  column_Site : option (list string);
  column_Date : option (list string)
}.

(** [df[key]] *)
Definition getitem (column : option (list string)) (key : string)
  : result (list string) :=
  match column with
  | Some cells => inr cells
  | None => raise (KeyError key)
  end.

(** What the library calls of [load_data_from_google_sheets] come to: the
    records of the worksheet, an exception raised inside the [try] block
    while the sheet is opened or read, or an exception raised by lines
    70-75, where the credentials file is loaded before the [try] block. *)
Inductive sheet_response : Type :=
| Sheet_records (df : DataFrame)
| Sheet_exception
| Credentials_exception (e : exception).

(** [load_data_from_google_sheets]: the [except Exception] branch prints the
    error and returns [None]; an exception of lines 70-75 is not caught. *)
Definition load_data_from_google_sheets (response : sheet_response)
  : result (option DataFrame) :=
  match response with
  | Credentials_exception e => raise e
  | Sheet_records df => inr (Some df)
  | Sheet_exception => inr None
  end.

(** ** Rows of [latest_visits] *)

Inductive priority : Type := HIGH | MEDIUM | LOW.

#[global] Instance priority_eq_dec : EqDecision priority.
Proof. solve_decision. Defined.

(** A row of [latest_visits].  [Last_Visit_Date] is [None] for NaT and for
    the [None] of [new_row]; [Days_Since_Visit] is [None] for NaN, the days
    since a date that is NaT. *)
Record SiteStatus : Type := {
  Site : string;
  Last_Visit_Date : option Z;
  Days_Since_Visit : option Z;
  Visit_Required : bool;
  Priority : priority
}.

#[global] Instance SiteStatus_eq_dec : EqDecision SiteStatus.
Proof. solve_decision. Defined.

Definition get_priority (days : Z) : priority :=
  if days >? 180 then HIGH
  else if days >? 120 then MEDIUM
  else LOW.

(** [x > n] on a cell that may be NaN: a comparison with NaN is false. *)
Definition days_gt (x : option Z) (n : Z) : bool :=
  match x with
  | Some days => days >? n
  | None => false
  end.

(** [get_priority] on a cell that may be NaN: both comparisons are false
    on NaN, which leaves the [else] branch. *)
Definition apply_get_priority (x : option Z) : priority :=
  match x with
  | Some days => get_priority days
  | None => LOW
  end.

Definition priority_order (p : priority) : Z :=
  match p with
  | HIGH => 0
  | MEDIUM => 1
  | LOW => 2
  end.

(** ** Sorting *)

(** A stable sort: an element is inserted in front of the first element it
    does not come after, so equal keys keep the order they arrive in. *)
Fixpoint insert_sorted {A : Type} (le : A → A → bool) (x : A) (l : list A)
  : list A :=
  match l with
  | [] => [x]
  | y :: l' => if le x y then x :: l else y :: insert_sorted le x l'
  end.

Definition stable_sort {A : Type} (le : A → A → bool) (l : list A) : list A :=
  foldr (insert_sorted le) [] l.

(** The second key of the sort, [Days_Since_Visit] with [ascending=False]:
    a larger number first, NaN after every number ([na_position='last']). *)
Definition days_descending_le (a b : option Z) : bool :=
  match a, b with
  | _, None => true
  | None, Some _ => false
  | Some x, Some y => y <=? x
  end.

(** The key of [sort_values(['Priority_Order', 'Days_Since_Visit'],
    ascending=[True, False])]. *)
Definition sort_key_le (a b : SiteStatus) : bool :=
  (priority_order (Priority a) <? priority_order (Priority b))
  || ((priority_order (Priority a) =? priority_order (Priority b))
      && days_descending_le (Days_Since_Visit a) (Days_Since_Visit b)).

Definition sort_values (rows : list SiteStatus) : list SiteStatus :=
  stable_sort sort_key_le rows.

(** ** Column reductions *)

Definition series_max (l : list Z) : option Z :=
  match l with
  | [] => None
  | d :: l' => Some (foldl Z.max d l')
  end.

Definition series_sum (l : list Z) : Z := foldr Z.add 0 l.

Definition series_mean (l : list Z) : option Q :=
  match l with
  | [] => None
  | _ :: _ => Some (Qmake (series_sum l) (Pos.of_nat (length l)))
  end.

Record summary_stats : Type := {
  Total_Target_Sites : nat;
  Sites_Requiring_Visit : nat;
  Sites_OK : nat;
  High_Priority : nat;
  Medium_Priority : nat;
  Low_Priority : nat;
  Average_Days_Since_Visit : option Q;
  Maximum_Days_Since_Visit : option Z;
  Sites_with_No_Data : nat
}.

(** [x < n] on a cell that may be NaN. *)
Definition days_lt (x : option Z) (n : Z) : Prop :=
  match x with
  | Some days => days < n
  | None => False
  end.

#[global] Instance days_lt_dec (x : option Z) (n : Z) : Decision (days_lt x n).
Proof. destruct x; simpl; apply _. Defined.

(** Lines 202-212.  The rows that [Days_Since_Visit < 999] selects hold
    numbers, whose mean and maximum are absent (NaN) when no row is
    selected. *)
Definition summarize (latest_visits : list SiteStatus) : summary_stats :=
  let with_days :=
    filter (λ r, days_lt (Days_Since_Visit r) 999) latest_visits in
  {| Total_Target_Sites := length latest_visits;
     Sites_Requiring_Visit :=
       length (filter (λ r, Visit_Required r = true) latest_visits);
     Sites_OK :=
       length (filter (λ r, Visit_Required r ≠ true) latest_visits);
     High_Priority := length (filter (λ r, Priority r = HIGH) latest_visits);
     Medium_Priority :=
       length (filter (λ r, Priority r = MEDIUM) latest_visits);
     Low_Priority := length (filter (λ r, Priority r = LOW) latest_visits);
     Average_Days_Since_Visit := series_mean (omap Days_Since_Visit with_days);
     Maximum_Days_Since_Visit := series_max (omap Days_Since_Visit with_days);
     Sites_with_No_Data :=
       length (filter (λ r, Days_Since_Visit r = Some 999) latest_visits) |}.

(** ** The analyzer *)

Inductive date_format : Type :=
| format_mixed            (* format='mixed' *)
| format_mdy              (* format='%m/%d/%y' *)
| format_mdY              (* format='%m/%d/%Y' *)
| infer_datetime_format.  (* infer_datetime_format=True *)

(** The rank of the formats in the chain of [try] blocks. *)
Definition fallback_order : list date_format :=
  [format_mixed; format_mdy; format_mdY; infer_datetime_format].

(** The type of the [Last_Visit_Date] column: [datetime64[ns]], on which the
    accessor [.dt] works, or [object]. *)
Inductive dtype : Type := datetime64 | object.

(** Line 216: the accessor [.dt] of a column. *)
Definition dt_accessor (d : dtype) : result unit :=
  match d with
  | datetime64 => inr tt
  | object => raise AttributeError
  end.

(** [max] of two dates, of which a NaT is skipped. *)
Definition max_skipna (a b : option Z) : option Z :=
  match a, b with
  | Some x, Some y => Some (Z.max x y)
  | Some x, None => Some x
  | None, _ => b
  end.

(** The iteration over a [set] whose hash table places a string at
    [position]: the elements by increasing position. *)
Definition set_iteration (position : string → Z) (s : gset string)
  : list string :=
  stable_sort (λ a b, position a <=? position b) (elements s).

Section Analyzer.

(** The module-level list of sites of interest. *)
Variable TARGET_SITES : list string.

(** [pd.to_datetime(column, ...)]: the converted column, where a cell is a
    timestamp or NaT, or [None] when the call raises. *)
Variable to_datetime : date_format → list string → option (list (option Z)).

(** The type of the [Last_Visit_Date] column of
    [pd.concat([latest_visits, pd.DataFrame([new_row])])], from the type
    and the values of the column of [latest_visits]; the column of the
    appended frame holds one [None]. *)
Variable concat_dtype : dtype → list (option Z) → dtype.

(** The position of a string in the hash table of [sites_no_data], a set
    built from [TARGET_SITES] and from the [Site] column. *)
Variable slot : list string → list string → string → Z.

Definition pd_to_datetime (fmt : date_format) (cells : list string)
  : result (list (option Z)) :=
  match to_datetime fmt cells with
  | Some dates => inr dates
  | None => raise ValueError
  end.

(** Lines 134-146: [df['Date'] = pd.to_datetime(df['Date'], ...)] inside
    nested [try] blocks.  The subscript [df['Date']] is evaluated inside
    each [try]. *)
Definition convert_Date_column (df : DataFrame) : result (list (option Z)) :=
  let attempt fmt :=
    (let! cells := getitem (column_Date df) "Date" in
     pd_to_datetime fmt cells) in
  try_except (attempt format_mixed)
    (try_except (attempt format_mdy)
       (try_except (attempt format_mdY)
          (attempt infer_datetime_format))).

(** [df[df['Site'].isin(TARGET_SITES)]], as (Site, Date) pairs; the converted
    column has one date per cell and the two columns are paired by
    position. *)
Definition filter_target_sites (sites : list string) (dates : list (option Z))
  : list (string * option Z) :=
  filter (λ r, r.1 ∈ TARGET_SITES) (zip sites dates).

(** [groupby('Site')['Date'].max()]: the groups, keyed by site, each with
    the latest of its dates; NaT when the group has no date. *)
Definition group_max (target_data : list (string * option Z))
  : gmap string (option Z) :=
  foldl (λ groups r,
           match groups !! r.1 with
           | Some d => <[r.1 := max_skipna d r.2]> groups
           | None => <[r.1 := r.2]> groups
           end) ∅ target_data.

(** [.reset_index()]: one row per group, in increasing order of the key. *)
Definition groupby_Site_Date_max (target_data : list (string * option Z))
  : list (string * option Z) :=
  stable_sort (λ a b, String.leb a.1 b.1)
    (map_to_list (group_max target_data)).

(** Lines 161-175: the derived columns of a row of the aggregation.  The
    days since NaT are NaN. *)
Definition visited_row (today : Z) (r : string * option Z) : SiteStatus :=
  let days := (λ date, Timedelta_days (today - date)) <$> r.2 in
  {| Site := r.1;
     Last_Visit_Date := r.2;
     Days_Since_Visit := days;
     Visit_Required := days_gt days 180;
     Priority := apply_get_priority days |}.

(** Lines 186-192: [new_row]. *)
Definition new_row (site : string) : SiteStatus :=
  {| Site := site;
     Last_Visit_Date := None;
     Days_Since_Visit := Some 999;
     Visit_Required := true;
     Priority := HIGH |}.

(** Lines 178-193: one row is appended per site of [sites_no_data], in the
    order of the iteration over the set.  The value is the rows with the
    type of the [Last_Visit_Date] column, which is [datetime64] in the
    frame of the aggregation and which each [pd.concat] decides anew. *)
Definition add_sites_no_data (latest_visits : list SiteStatus)
  : list SiteStatus * dtype :=
  let all_target_sites : gset string := list_to_set TARGET_SITES in
  let sites_with_data : gset string :=
    list_to_set (Site <$> latest_visits) in
  let sites_no_data := all_target_sites ∖ sites_with_data in
  foldl (λ latest_visits site,
           ((latest_visits.1 ++ [new_row site])%list,
            concat_dtype latest_visits.2
              (Last_Visit_Date <$> latest_visits.1)))
    (latest_visits, datetime64)
    (set_iteration (slot TARGET_SITES (Site <$> latest_visits))
       sites_no_data).

(** Lines 150-199, on the converted [Date] column: the sorted rows and the
    type of their [Last_Visit_Date] column. *)
Definition latest_visits_frame (sites : list string)
    (dates : list (option Z)) (today : Z) : list SiteStatus * dtype :=
  let target_data := filter_target_sites sites dates in
  let latest_visits :=
    visited_row today <$> groupby_Site_Date_max target_data in
  let latest_visits := add_sites_no_data latest_visits in
  (sort_values latest_visits.1, latest_visits.2).

(** Lines 150-212: [latest_visits] and [summary_stats]. *)
Definition analyze_frame (sites : list string) (dates : list (option Z))
    (today : Z) : list SiteStatus * summary_stats :=
  let latest_visits := (latest_visits_frame sites dates today).1 in
  (latest_visits, summarize latest_visits).

(** Lines 214-365, after the summary statistics: line 216 uses [.dt] on the
    [Last_Visit_Date] column, the workbook is written and the summary
    printed, and [latest_visits] is returned. *)
Definition write_report (column : dtype) (report_exception : option exception)
    (r : list SiteStatus * summary_stats)
  : result (list SiteStatus * summary_stats) :=
  let! _ := dt_accessor column in
  match report_exception with
  | Some e => raise e
  | None => inr r
  end.

(** Lines 132-365 as a computation that may raise. *)
Definition analyze_loaded (df : DataFrame)
    (report_exception : option exception) (today : Z)
  : result (list SiteStatus * summary_stats) :=
  let! dates := convert_Date_column df in
  let! sites := getitem (column_Site df) "Site" in
  write_report (latest_visits_frame sites dates today).2 report_exception
    (analyze_frame sites dates today).

(** [analyze_site_visits_from_sheets]; the value is [latest_visits], here
    together with [summary_stats]. *)
Definition analyze_site_visits_from_sheets
    (response : sheet_response) (report_exception : option exception)
    (today : Z)
  : outcome (list SiteStatus * summary_stats) :=
  match load_data_from_google_sheets response with
  | inl e => Raises e
  | inr None => ReturnsNone
  | inr (Some df) => outcome_of (analyze_loaded df report_exception today)
  end.

End Analyzer.

(** The value of [TARGET_SITES] in the script. *)
Definition TARGET_SITES : list string :=
  [ "NANT"; "BLCK"; "AMAG"; "MRCH"; "HEMP"; "HOOK"; "LOVE";
    "BRIG"; "WILD"; "SILD"; "OLDB"; "PORT"; "CAPE"; "LEWE"; "HLPN";
    "SEAB"; "BRAD"; "SPRK"; "HLGT"; "BRMR"; "RATH"; "WOOD"; "CMPT" ].

(** ** Names for the statements *)

(** The dates of the records of one site; a record whose date is NaT
    contributes none. *)
Definition dates_of (s : string) (data : list (string * option Z)) : list Z :=
  omap snd (filter (λ r, r.1 = s) data).

(** The sites that the loop of lines 185-193 visits. *)
Definition sites_no_data (targets : list string)
    (latest_visits : list SiteStatus) : gset string :=
  list_to_set targets ∖ list_to_set (Site <$> latest_visits).

(** The order in which the loop visits them. *)
Definition backfill_order (targets : list string)
    (slot : list string → list string → string → Z)
    (latest_visits : list SiteStatus) : list string :=
  set_iteration (slot targets (Site <$> latest_visits))
    (sites_no_data targets latest_visits).

(** The rows that come out of the aggregation, before the backfill. *)
Definition visited_rows (targets : list string) (sites : list string)
    (dates : list (option Z)) (today : Z) : list SiteStatus :=
  visited_row today
    <$> groupby_Site_Date_max (filter_target_sites targets sites dates).

(** Whether a row carries a visit date. *)
Definition has_data (r : SiteStatus) : Prop := is_Some (Last_Visit_Date r).

#[global] Instance has_data_dec (r : SiteStatus) : Decision (has_data r).
Proof. unfold has_data. apply _. Defined.

(** Rows without a visit date come before the rows of priority HIGH that
    carry one. *)
Definition no_data_first (rows : list SiteStatus) : Prop :=
  ∀ (i j : nat) (x y : SiteStatus),
    rows !! i = Some x → rows !! j = Some y →
    ¬ has_data x → has_data y → Priority y = HIGH → (i < j)%nat.

(** The order of the report: a smaller priority rank first and, at equal
    rank, a number of days before a smaller number and before NaN. *)
Definition in_report_order (a b : SiteStatus) : Prop :=
  priority_order (Priority a) < priority_order (Priority b)
  ∨ (priority_order (Priority a) = priority_order (Priority b)
     ∧ match Days_Since_Visit a, Days_Since_Visit b with
       | _, None => True
       | None, Some _ => False
       | Some x, Some y => y ≤ x
       end).

(** Two rows that differ at most in the site they name, and only when they
    carry no visit date. *)
Definition agree_up_to_site (a b : SiteStatus) : Prop :=
  Last_Visit_Date a = Last_Visit_Date b
  ∧ Days_Since_Visit a = Days_Since_Visit b
  ∧ Visit_Required a = Visit_Required b
  ∧ Priority a = Priority b
  ∧ (has_data a → Site a = Site b).

(** The fallback chain in the words of the specification: the first format
    of the list that converts the whole column. *)
Fixpoint first_format_that_parses
    (to_datetime : date_format → list string → option (list (option Z)))
    (formats : list date_format) (cells : list string)
  : option (list (option Z)) :=
  match formats with
  | [] => None
  | fmt :: formats' =>
      match to_datetime fmt cells with
      | Some dates => Some dates
      | None => first_format_that_parses to_datetime formats' cells
      end
  end.

(** ** A library for the examples *)

Definition digit (a : ascii) : option Z :=
  let n := Z.of_N (Ascii.N_of_ascii a) in
  if (48 <=? n) && (n <=? 57) then Some (n - 48) else None.

Definition two_digits (a b : ascii) : option Z :=
  match digit a, digit b with
  | Some x, Some y => Some (10 * x + y)
  | _, _ => None
  end.

(** The reading of [MM/DD/YY] by the directive [%m/%d/%y], on cells that
    have two digits in each field: years 69 to 99 are in the 1900s. *)
Definition strptime_mdy (cell : string) : option Z :=
  match cell with
  | String m1 (String m2 (String "/" (String d1 (String d2 (String "/"
      (String y1 (String y2 EmptyString))))))) =>
      match two_digits m1 m2, two_digits d1 d2, two_digits y1 y2 with
      | Some m, Some d, Some y =>
          if (1 <=? m) && (m <=? 12) && (1 <=? d) && (d <=? 31)
          then Some (Timestamp (if y <? 69 then 2000 + y else 1900 + y) m d)
          else None
      | _, _, _ => None
      end
  | _ => None
  end.

(** The conversion of one cell: an empty cell is NaT. *)
Definition cell_to_datetime (cell : string) : option (option Z) :=
  match cell with
  | EmptyString => Some None
  | _ => Some <$> strptime_mdy cell
  end.

(** A library whose every format but [%m/%d/%Y] reads [MM/DD/YY] cells. *)
Definition example_to_datetime (fmt : date_format) (cells : list string)
  : option (list (option Z)) :=
  match fmt with
  | format_mdY => None
  | _ => mapM cell_to_datetime cells
  end.

(** A library that knows no [format='mixed'] and reads [MM/DD/YY] cells with
    [%m/%d/%y] only. *)
Definition strict_to_datetime (fmt : date_format) (cells : list string)
  : option (list (option Z)) :=
  match fmt with
  | format_mdy => mapM cell_to_datetime cells
  | _ => None
  end.

(** A [pd.concat] that leaves a column without values out when it
    chooses the type of a column: a [datetime64] column that holds a date
    stays [datetime64] when a [None] is appended. *)
Definition lenient_concat_dtype (column : dtype) (values : list (option Z))
  : dtype :=
  match column, omap id values with
  | datetime64, _ :: _ => datetime64
  | _, _ => object
  end.

(** A [pd.concat] that gives the column the common type of its two parts,
    which is [object] for [datetime64] and [object]. *)
Definition common_concat_dtype (column : dtype) (values : list (option Z))
  : dtype := object.

(** ** Runs for the examples *)

Fixpoint index_of (s : string) (l : list string) : Z :=
  match l with
  | [] => 0
  | x :: l' => if decide (x = s) then 0 else 1 + index_of s l'
  end.

(** A hash table that yields the target sites in the order of the list
    the set was built from. *)
Definition example_slot (targets sites_with_data : list string) (s : string)
  : Z :=
  index_of s targets.

(** A hash table that yields them in the opposite order. *)
Definition reverse_slot (targets sites_with_data : list string) (s : string)
  : Z :=
  - index_of s targets.

(** Two visits of NANT, one of HOOK and one of a site that is no target. *)
Definition example_df : DataFrame :=
  {| column_Site := Some ["NANT"; "NANT"; "HOOK"; "ELSE"];
     column_Date := Some ["01/01/24"; "06/01/24"; "12/25/23"; "02/02/24"] |}.

Definition example_today : Z := Timestamp 2024 8 1.

(** A run in which the report is written. *)
Definition example_run (df : DataFrame) (today : Z)
  : outcome (list SiteStatus * summary_stats) :=
  analyze_site_visits_from_sheets TARGET_SITES example_to_datetime
    lenient_concat_dtype example_slot (Sheet_records df) None today.

Definition rows_of (run : outcome (list SiteStatus * summary_stats))
  : list SiteStatus :=
  match run with
  | Returns r => r.1
  | _ => []
  end.

Definition example_outcome : outcome (list SiteStatus * summary_stats) :=
  Eval vm_compute in example_run example_df example_today.

Definition example_rows : list SiteStatus :=
  Eval vm_compute in rows_of example_outcome.

Definition example_stats : summary_stats := summarize example_rows.

(** The same sheet read on the last day of 2023, before the latest visit of
    NANT. *)
Definition example_early_today : Z := Timestamp 2023 12 31.

Definition example_early_rows : list SiteStatus :=
  Eval vm_compute in rows_of (example_run example_df example_early_today).

(** A sheet with old visits: NANT on 1 January 2020, HOOK on 6 November
    2021 (999 days before 1 August 2024) and BLCK on 1 June 2024. *)
Definition old_visits_df : DataFrame :=
  {| column_Site := Some ["NANT"; "HOOK"; "BLCK"];
     column_Date := Some ["01/01/20"; "11/06/21"; "06/01/24"] |}.

Definition old_visits_rows : list SiteStatus :=
  Eval vm_compute in rows_of (example_run old_visits_df example_today).

(** A sheet on which the only record of HOOK has an empty date. *)
Definition blank_date_df : DataFrame :=
  {| column_Site := Some ["NANT"; "HOOK"];
     column_Date := Some ["06/01/24"; ""] |}.

Definition blank_date_rows : list SiteStatus :=
  Eval vm_compute in rows_of (example_run blank_date_df example_today).

(** A sheet without a record of a target site. *)
Definition no_target_df : DataFrame :=
  {| column_Site := Some ["ELSE"];
     column_Date := Some ["02/02/24"] |}.

(** A sheet with a cell that no format reads. *)
Definition unreadable_df : DataFrame :=
  {| column_Site := Some ["NANT"; "HOOK"];
     column_Date := Some ["06/01/24"; "yesterday"] |}.

(** Sheets without a [Date] column and without a [Site] column. *)
Definition no_Date_df : DataFrame :=
  {| column_Site := Some ["NANT"]; column_Date := None |}.

Definition no_Site_df : DataFrame :=
  {| column_Site := None; column_Date := Some ["06/01/24"] |}.
(** * The rest of the script *)

(** ** Strings *)

(** [s.endswith(suffix)] *)
Fixpoint str_endswith (s suffix : string) : bool :=
  String.eqb s suffix
  || match s with
     | EmptyString => false
     | String _ s' => str_endswith s' suffix
     end.

Fixpoint str_drop (n : nat) (s : string) : string :=
  match n, s with
  | O, _ => s
  | S n', String _ s' => str_drop n' s'
  | S _, EmptyString => EmptyString
  end.

(** [s.partition(sep)]: the text before and after the first occurrence of
    [sep], or [None] when [sep] does not occur. *)
Fixpoint str_partition (sep s : string) : option (string * string) :=
  if String.prefix sep s then Some (EmptyString, str_drop (String.length sep) s)
  else
    match s with
    | EmptyString => None
    | String c s' =>
        match str_partition sep s' with
        | Some (before, after) => Some (String c before, after)
        | None => None
        end
    end.

(** [sep in s] *)
Definition str_in (sep s : string) : bool :=
  match str_partition sep s with
  | Some _ => true
  | None => false
  end.

(** [s.split(sep)] for a separator that is not empty: the text is cut at
    each occurrence, from the left; [fuel] bounds the number of cuts. *)
Fixpoint str_split_fuel (fuel : nat) (sep s : string) : list string :=
  match fuel with
  | O => [s]
  | S fuel' =>
      match str_partition sep s with
      | Some (before, after) => before :: str_split_fuel fuel' sep after
      | None => [s]
      end
  end.

Definition str_split (sep s : string) : list string :=
  str_split_fuel (String.length s) sep s.

(** [s.split(sep)[0]]: the text before the first occurrence of [sep], the
    whole text when there is none. *)
Definition first_piece (sep s : string) : string :=
  match str_partition sep s with
  | Some (before, _) => before
  | None => s
  end.

(** ** The spreadsheet key *)

Definition SPREADSHEET_URL : string :=
  "https://docs.google.com/spreadsheets/d/1d5zPBR64RKGYmP6SnsuUYg4DJnLJkI7W4FdA7DniJ00/edit?usp=sharing".

(** Lines 80-83 of [load_data_from_google_sheets]; [None] stands for the
    [IndexError] of a subscript out of range. *)
Definition extract_spreadsheet_id (spreadsheet_url : string) : option string :=
  if str_in "/d/" spreadsheet_url then
    match str_split "/d/" spreadsheet_url !! 1%nat with
    | Some piece => str_split "/" piece !! 0%nat
    | None => None
    end
  else Some spreadsheet_url.

(** ** The service account file *)

Definition json_name : list string :=
  ["dazzling-howl-465916-a1-3199e1fa2c8d.json"].

Section ServiceAccount.

(** The directory of the script, [os.path.join], the entries that
    [os.listdir] yields for the directory, and [os.path.exists]. *)
Variable script_dir : string.
Variable os_path_join : string → string → string.
Variable os_listdir : list string.
Variable os_path_exists : string → bool.

(** Lines 33-37: the first of the given names that exists. *)
Fixpoint first_existing (names : list string) : option string :=
  match names with
  | [] => None
  | name :: names' =>
      let json_path := os_path_join script_dir name in
      if os_path_exists json_path then Some json_path
      else first_existing names'
  end.

Definition find_service_account_json : option string :=
  let json_files :=
    filter (λ f, str_endswith f ".json" = true) os_listdir in
  match first_existing json_name with
  | Some json_path => Some json_path
  | None =>
      match json_files with
      | f :: _ => Some (os_path_join script_dir f)
      | [] => None
      end
  end.

End ServiceAccount.

(** ** The report *)

Record PatternFill : Type := {
  start_color : string;
  end_color : string;
  fill_type : string
}.

#[global] Instance PatternFill_eq_dec : EqDecision PatternFill.
Proof. solve_decision. Defined.

Definition red_fill : PatternFill :=
  {| start_color := "FFCCCC"; end_color := "FFCCCC"; fill_type := "solid" |}.

Definition yellow_fill : PatternFill :=
  {| start_color := "FFFF99"; end_color := "FFFF99"; fill_type := "solid" |}.

(** A cell of the [Days_Since_Visit] column of the report: a number, a
    text, or NaN, which the workbook shows as an empty cell. *)
Inductive cell_value : Type :=
| Number (n : Z)
| Text (s : string)
| NaN.

(** A row of [output_df], in the order of [column_order]. *)
Record OutputRow : Type := {
  out_Site : string;
  out_Last_Visit_Date : string;
  out_Days_Since_Visit : cell_value;
  out_Priority : priority;
  out_Visit_Required : bool
}.

Definition column_order : list string :=
  ["Site"; "Last_Visit_Date"; "Days_Since_Visit"; "Priority";
   "Visit_Required"].

Section Report.

(** [strftime('%Y-%m-%d')] of one timestamp. *)
Variable strftime : Z → string.

(** Lines 215-222, one row of a frame whose [Last_Visit_Date] column is a
    column of dates: [fillna] writes [No Data] where the date is missing,
    and [replace] writes it where the number of days is 999; NaN is no
    999 and stays. *)
Definition format_output_row (r : SiteStatus) : OutputRow :=
  {| out_Site := Site r;
     out_Last_Visit_Date :=
       match Last_Visit_Date r with
       | Some d => strftime d
       | None => "No Data"
       end;
     out_Days_Since_Visit :=
       match Days_Since_Visit r with
       | Some days => if days =? 999 then Text "No Data" else Number days
       | None => NaN
       end;
     out_Priority := Priority r;
     out_Visit_Required := Visit_Required r |}.

(** [output_df] of a run that gets past line 216. *)
Definition format_output (latest_visits : list SiteStatus) : list OutputRow :=
  format_output_row <$> latest_visits.

End Report.

(** Lines 265-266: the fill of every column of one row of the worksheet. *)
Definition fill_row (fills : gmap (nat * nat) PatternFill)
    (row_idx ncols : nat) (fill : PatternFill)
  : gmap (nat * nat) PatternFill :=
  foldl (λ fills col_idx, <[(row_idx, col_idx) := fill]> fills)
    fills (seq 1 ncols).

(** Lines 254-266 and 296-307: the fills of a worksheet that holds the
    header in row 1 and the rows of [df] from row 2 on, keyed by row and
    column; a cell without an entry keeps the default fill. *)
Definition color_rows (df : list OutputRow) : gmap (nat * nat) PatternFill :=
  foldl (λ fills row_idx,
           match out_Priority <$> df !! (row_idx - 2)%nat with
           | Some HIGH => fill_row fills row_idx (length column_order) red_fill
           | Some MEDIUM =>
               fill_row fills row_idx (length column_order) yellow_fill
           | _ => fills
           end)
    ∅ (seq 2 (length df)).

(** The fill that the colouring loop gives a row of a priority; [None] is
    the [continue] of the loop. *)
Definition fill_of_priority (p : priority) : option PatternFill :=
  match p with
  | HIGH => Some red_fill
  | MEDIUM => Some yellow_fill
  | LOW => None
  end.

(** Line 273: the sheet of the sites that need attention. *)
Definition priority_sites (output_df : list OutputRow) : list OutputRow :=
  filter (λ o, out_Priority o ∈ [HIGH; MEDIUM]) output_df.

(** Lines 238-251: the width of a column from the texts of its cells, the
    header included. *)
Definition adjusted_width (column : list string) : nat :=
  let max_length :=
    foldl (λ max_length value,
             if (max_length <? String.length value)%nat
             then String.length value else max_length)
      O column in
  Nat.min (max_length + 2) 50.

(** ** The priority breakdown *)

(** The text of a priority in the [Priority] column. *)
Definition priority_name (p : priority) : string :=
  match p with
  | HIGH => "HIGH"
  | MEDIUM => "MEDIUM"
  | LOW => "LOW"
  end.

(** [sep.join(l)] *)
Definition str_join (sep : string) (l : list string) : string :=
  match l with
  | [] => ""
  | x :: l' => foldl (λ joined y, joined +:+ sep +:+ y) x l'
  end.

(** A row of the breakdown sheet: the index and the columns [Sites] and
    [Count]; [count] counts the rows of the group whose number of days is
    not NaN.  The column [Avg_Days] is a floating-point mean rounded to one
    decimal and is not part of the model. *)
Record BreakdownRow : Type := {
  bd_Priority : priority;
  bd_Sites : string;
  bd_Count : nat
}.

(** Lines 310-314: [groupby('Priority')], one row per priority that occurs,
    in increasing order of the text of the priority. *)
Definition priority_breakdown (latest_visits : list SiteStatus)
  : list BreakdownRow :=
  (λ p, let group := filter (λ r, Priority r = p) latest_visits in
        {| bd_Priority := p;
           bd_Sites := str_join ", " (Site <$> group);
           bd_Count :=
             length (filter (λ r, is_Some (Days_Since_Visit r)) group) |})
  <$> stable_sort (λ a b, String.leb (priority_name a) (priority_name b))
        (remove_dups (Priority <$> latest_visits)).

(** * Properties *)

(** ** The stable sort *)

Section StableSort.

Context {A : Type} (le : A → A → bool).

Lemma insert_sorted_perm (x : A) (l : list A) :
  insert_sorted le x l ≡ₚ x :: l.
Proof.
  induction l as [|y l IH]; simpl; [done|].
  destruct (le x y); [done|].
  rewrite IH. apply perm_swap.
Qed.

Lemma stable_sort_perm (l : list A) : stable_sort le l ≡ₚ l.
Proof.
  induction l as [|x l IH]; simpl; [done|].
  fold (stable_sort le l). by rewrite insert_sorted_perm, IH.
Qed.

Lemma stable_sort_length (l : list A) :
  length (stable_sort le l) = length l.
Proof. by rewrite stable_sort_perm. Qed.

Lemma stable_sort_elem_of (x : A) (l : list A) :
  x ∈ stable_sort le l ↔ x ∈ l.
Proof. by rewrite stable_sort_perm. Qed.

Hypothesis le_total : ∀ a b, le a b = true ∨ le b a = true.
Hypothesis le_trans : ∀ a b c, le a b = true → le b c = true → le a c = true.

Lemma insert_sorted_sorted (x : A) (l : list A) :
  StronglySorted (λ a b, le a b = true) l →
  StronglySorted (λ a b, le a b = true) (insert_sorted le x l).
Proof.
  induction 1 as [|y l Hl IH Hy]; simpl.
  - repeat constructor.
  - destruct (le x y) eqn:Hxy.
    + constructor; [by constructor|].
      constructor; [done|].
      eapply Forall_impl; [exact Hy|]. intros z Hz. by eapply le_trans.
    + constructor; [done|].
      rewrite insert_sorted_perm. constructor; [|done].
      destruct (le_total x y) as [Hc|Hc]; [congruence|done].
Qed.

Lemma stable_sort_sorted (l : list A) :
  StronglySorted (λ a b, le a b = true) (stable_sort le l).
Proof.
  induction l as [|x l IH]; simpl; [constructor|].
  by apply insert_sorted_sorted.
Qed.

End StableSort.

(** Two lists that agree position by position up to [R], sorted with keys
    that [R] does not tell apart, still agree position by position. *)
Lemma insert_sorted_Forall2 {A : Type} (le : A → A → bool)
    (R : A → A → Prop) (x y : A) (l k : list A) :
  (∀ a b c d, R a b → R c d → le a c = le b d) →
  R x y → Forall2 R l k →
  Forall2 R (insert_sorted le x l) (insert_sorted le y k).
Proof.
  intros Hle Hxy Hlk. induction Hlk as [|a b l k Hab Hlk IH]; simpl.
  - by repeat constructor.
  - rewrite (Hle x y a b Hxy Hab). destruct (le y b).
    + by repeat constructor.
    + by constructor.
Qed.

Lemma stable_sort_Forall2 {A : Type} (le : A → A → bool)
    (R : A → A → Prop) (l k : list A) :
  (∀ a b c d, R a b → R c d → le a c = le b d) →
  Forall2 R l k →
  Forall2 R (stable_sort le l) (stable_sort le k).
Proof.
  intros Hle Hlk. induction Hlk as [|a b l k Hab Hlk IH]; simpl.
  - constructor.
  - by apply insert_sorted_Forall2.
Qed.

(** ** The sort key *)

Lemma days_descending_le_spec (a b : option Z) :
  days_descending_le a b = true ↔
  match a, b with
  | _, None => True
  | None, Some _ => False
  | Some x, Some y => y ≤ x
  end.
Proof.
  destruct a as [x|], b as [y|]; simpl; try done.
  apply Z.leb_le.
Qed.

Lemma sort_key_le_spec (a b : SiteStatus) :
  sort_key_le a b = true ↔ in_report_order a b.
Proof.
  unfold sort_key_le, in_report_order.
  rewrite orb_true_iff, andb_true_iff, Z.ltb_lt, Z.eqb_eq,
    days_descending_le_spec. done.
Qed.

Lemma sort_key_le_total (a b : SiteStatus) :
  sort_key_le a b = true ∨ sort_key_le b a = true.
Proof.
  rewrite !sort_key_le_spec. unfold in_report_order.
  destruct (Days_Since_Visit a), (Days_Since_Visit b); lia.
Qed.

Lemma sort_key_le_trans (a b c : SiteStatus) :
  sort_key_le a b = true → sort_key_le b c = true → sort_key_le a c = true.
Proof.
  rewrite !sort_key_le_spec. unfold in_report_order.
  destruct (Days_Since_Visit a), (Days_Since_Visit b), (Days_Since_Visit c);
    lia.
Qed.

Lemma sort_values_perm (rows : list SiteStatus) : sort_values rows ≡ₚ rows.
Proof. apply stable_sort_perm. Qed.

Lemma sort_values_sorted (rows : list SiteStatus) :
  StronglySorted (λ a b, sort_key_le a b = true) (sort_values rows).
Proof.
  apply stable_sort_sorted.
  - apply sort_key_le_total.
  - apply sort_key_le_trans.
Qed.

(** ** Column reductions *)

Lemma foldl_max_ge (l : list Z) (d : Z) :
  d ≤ foldl Z.max d l ∧ Forall (λ x, x ≤ foldl Z.max d l) l.
Proof.
  revert d. induction l as [|y l IH]; intros d; simpl.
  - split; [lia|constructor].
  - destruct (IH (Z.max d y)) as [H1 H2]. split; [lia|].
    constructor; [lia|done].
Qed.

Lemma foldl_max_elem_of (l : list Z) (d : Z) :
  foldl Z.max d l ∈ d :: l.
Proof.
  revert d. induction l as [|y l IH]; intros d; simpl.
  - apply list_elem_of_here.
  - specialize (IH (Z.max d y)).
    apply elem_of_cons in IH as [IH|IH].
    + rewrite IH. destruct (Z.max_spec d y) as [[_ ->]|[_ ->]].
      * apply list_elem_of_further, list_elem_of_here.
      * apply list_elem_of_here.
    + by do 2 apply list_elem_of_further.
Qed.

Lemma series_max_Some (l : list Z) (m : Z) :
  series_max l = Some m → m ∈ l ∧ Forall (λ x, x ≤ m) l.
Proof.
  destruct l as [|d l]; simpl; [done|]. intros [= <-]. split.
  - apply foldl_max_elem_of.
  - destruct (foldl_max_ge l d). by constructor.
Qed.

Lemma series_max_None (l : list Z) : series_max l = None ↔ l = [].
Proof. by destruct l. Qed.

(** ** Grouping *)

Lemma omap_cons {A B : Type} (f : A → option B) (x : A) (l : list A) :
  omap f (x :: l)
  = match f x with
    | Some y => y :: omap f l
    | None => omap f l
    end.
Proof. done. Qed.

(** The latest of the dates of a group, of which the first is [d]. *)
Lemma foldl_max_skipna (d : option Z) (l : list (option Z)) :
  foldl max_skipna d l = series_max (omap id (d :: l)).
Proof.
  revert d. induction l as [|y l IH]; intros d.
  - by destruct d.
  - cbn [foldl]. rewrite IH, !omap_cons. by destruct d, y.
Qed.

Lemma omap_id_snd (data : list (string * option Z)) :
  omap id data.*2 = omap snd data.
Proof.
  induction data as [|[s d] data IH]; [done|].
  rewrite fmap_cons. cbn [snd]. rewrite !omap_cons. cbn [snd id].
  by rewrite IH.
Qed.

Lemma foldl_group_lookup (data : list (string * option Z))
    (groups : gmap string (option Z)) (s : string) :
  foldl (λ groups r,
           match groups !! r.1 with
           | Some d => <[r.1 := max_skipna d r.2]> groups
           | None => <[r.1 := r.2]> groups
           end) groups data !! s
  = match groups !! s with
    | Some d => Some (foldl max_skipna d (filter (λ r, r.1 = s) data).*2)
    | None =>
        match (filter (λ r, r.1 = s) data).*2 with
        | [] => None
        | d :: l => Some (foldl max_skipna d l)
        end
    end.
Proof.
  revert groups. induction data as [|[s' d'] data IH]; intros groups.
  - simpl. by destruct (groups !! s).
  - cbn [foldl]. rewrite IH. rewrite filter_cons. simpl.
    destruct (decide (s' = s)) as [->|Hne].
    + destruct (groups !! s) as [d|] eqn:Hs; by rewrite lookup_insert_eq.
    + destruct (groups !! s') as [d|] eqn:Hs'; by rewrite lookup_insert_ne.
Qed.

Lemma filter_key_nil (s : string) (data : list (string * option Z)) :
  filter (λ r, r.1 = s) data = [] ↔ s ∉ data.*1.
Proof.
  induction data as [|[s' d'] data IH]; simpl.
  - split; [intros _; apply not_elem_of_nil|done].
  - rewrite filter_cons, not_elem_of_cons. simpl.
    destruct (decide (s' = s)) as [->|Hne]; simpl.
    + split; [done|]. by intros [? _].
    + rewrite IH. split; [by split|by intros [_ ?]].
Qed.

(** A site has a group exactly when a record names it, and the date of the
    group is the latest of the dates of its records. *)
Lemma group_max_lookup (data : list (string * option Z)) (s : string) :
  group_max data !! s
  = if decide (s ∈ data.*1) then Some (series_max (dates_of s data))
    else None.
Proof.
  unfold group_max. rewrite foldl_group_lookup, lookup_empty.
  unfold dates_of. rewrite <- omap_id_snd.
  destruct (filter (λ r, r.1 = s) data) as [|[s' d] l] eqn:Hf.
  - apply filter_key_nil in Hf. by rewrite decide_False.
  - rewrite decide_True.
    + cbn [fmap list_fmap snd]. by rewrite foldl_max_skipna.
    + destruct (decide (s ∈ data.*1)) as [|Hn]; [done|].
      apply filter_key_nil in Hn. congruence.
Qed.

Lemma groupby_perm (data : list (string * option Z)) :
  groupby_Site_Date_max data ≡ₚ map_to_list (group_max data).
Proof. apply stable_sort_perm. Qed.

Lemma groupby_elem_of (data : list (string * option Z)) (s : string)
    (d : option Z) :
  (s, d) ∈ groupby_Site_Date_max data ↔
  s ∈ data.*1 ∧ d = series_max (dates_of s data).
Proof.
  rewrite groupby_perm, elem_of_map_to_list, group_max_lookup.
  case_decide; [|by intuition]. split.
  - intros [= <-]. done.
  - intros [_ ->]. done.
Qed.

Lemma groupby_NoDup (data : list (string * option Z)) :
  NoDup (groupby_Site_Date_max data).*1.
Proof. rewrite groupby_perm. apply NoDup_fst_map_to_list. Qed.

Lemma groupby_keys (data : list (string * option Z)) (s : string) :
  s ∈ (groupby_Site_Date_max data).*1 ↔ s ∈ data.*1.
Proof.
  rewrite list_elem_of_fmap. split.
  - intros [[s' d] [-> Hin]]. simpl. by apply groupby_elem_of in Hin as [? _].
  - intros Hin. exists (s, series_max (dates_of s data)). split; [done|].
    by apply groupby_elem_of.
Qed.

(** ** The rows before and after the sort *)

Lemma set_iteration_perm (position : string → Z) (s : gset string) :
  set_iteration position s ≡ₚ elements s.
Proof. apply stable_sort_perm. Qed.

Lemma set_iteration_NoDup (position : string → Z) (s : gset string) :
  NoDup (set_iteration position s).
Proof. rewrite set_iteration_perm. apply NoDup_elements. Qed.

Lemma set_iteration_elem_of (position : string → Z) (s : gset string)
    (x : string) :
  x ∈ set_iteration position s ↔ x ∈ s.
Proof. rewrite set_iteration_perm. apply elem_of_elements. Qed.

(** The rows of a loop that appends one row per element and carries a
    second component along. *)
Lemma foldl_snoc {A B C D : Type} (f : B → A) (h : list A → D)
    (g : C → D → C) (acc : list A) (c : C) (l : list B) :
  (foldl (λ frame x, ((frame.1 ++ [f x])%list, g frame.2 (h frame.1)))
     (acc, c) l).1
  = (acc ++ (f <$> l))%list.
Proof.
  revert acc c. induction l as [|x l IH]; intros acc c; simpl.
  - by rewrite app_nil_r.
  - by rewrite IH, <- app_assoc.
Qed.

(** The type of the column after the loop depends on the dates of the rows
    before the loop and on the number of the rows appended, not on the
    sites they name. *)
Lemma foldl_new_row_dtype (g : dtype → list (option Z) → dtype)
    (acc acc' : list SiteStatus) (c : dtype) (l l' : list string) :
  Last_Visit_Date <$> acc = Last_Visit_Date <$> acc' →
  length l = length l' →
  (foldl (λ frame site,
            ((frame.1 ++ [new_row site])%list,
             g frame.2 (Last_Visit_Date <$> frame.1)))
     (acc, c) l).2
  = (foldl (λ frame site,
              ((frame.1 ++ [new_row site])%list,
               g frame.2 (Last_Visit_Date <$> frame.1)))
       (acc', c) l').2.
Proof.
  revert acc acc' c l'. induction l as [|x l IH]; intros acc acc' c l' Ha Hl.
  - by destruct l'.
  - destruct l' as [|x' l']; [done|]. simpl. rewrite Ha. apply IH.
    + by rewrite !fmap_app, Ha.
    + simpl in Hl. lia.
Qed.

Section AnalyzerFacts.

Context (targets : list string)
        (to_datetime : date_format → list string → option (list (option Z)))
        (concat_dtype : dtype → list (option Z) → dtype)
        (slot : list string → list string → string → Z).

Lemma add_sites_no_data_eq (latest_visits : list SiteStatus) :
  (add_sites_no_data targets concat_dtype slot latest_visits).1
  = (latest_visits ++ (new_row <$> backfill_order targets slot latest_visits))%list.
Proof. unfold add_sites_no_data. by rewrite foldl_snoc. Qed.

Lemma analyze_frame_rows (sites : list string) (dates : list (option Z))
    (today : Z) :
  (analyze_frame targets concat_dtype slot sites dates today).1
  = sort_values
      (visited_rows targets sites dates today
       ++ (new_row <$> backfill_order targets slot
             (visited_rows targets sites dates today)))%list.
Proof.
  unfold analyze_frame, latest_visits_frame. simpl.
  by rewrite add_sites_no_data_eq.
Qed.

Lemma analyze_frame_stats (sites : list string) (dates : list (option Z))
    (today : Z) :
  (analyze_frame targets concat_dtype slot sites dates today).2
  = summarize (analyze_frame targets concat_dtype slot sites dates today).1.
Proof. done. Qed.

Lemma visited_rows_Site (sites : list string) (dates : list (option Z))
    (today : Z) :
  Site <$> visited_rows targets sites dates today
  = (groupby_Site_Date_max (filter_target_sites targets sites dates)).*1.
Proof. unfold visited_rows. rewrite <- list_fmap_compose. done. Qed.

Lemma new_row_Site (l : list string) : Site <$> (new_row <$> l) = l.
Proof. rewrite <- list_fmap_compose. apply list_fmap_id. Qed.

Lemma visited_rows_NoDup (sites : list string) (dates : list (option Z))
    (today : Z) :
  NoDup (Site <$> visited_rows targets sites dates today).
Proof. rewrite visited_rows_Site. apply groupby_NoDup. Qed.

Lemma filter_target_sites_keys (sites : list string)
    (dates : list (option Z)) (s : string) :
  s ∈ (filter_target_sites targets sites dates).*1 ↔
  s ∈ targets ∧ s ∈ (zip sites dates).*1.
Proof.
  unfold filter_target_sites. rewrite !list_elem_of_fmap. split.
  - intros [r [-> Hr]]. apply list_elem_of_filter in Hr as [Ht Hr].
    split; [done|]. by exists r.
  - intros [Ht [r [-> Hr]]]. exists r. split; [done|].
    by apply list_elem_of_filter.
Qed.

Lemma visited_rows_elem_of (sites : list string) (dates : list (option Z))
    (today : Z) (s : string) :
  s ∈ Site <$> visited_rows targets sites dates today ↔
  s ∈ targets ∧ s ∈ (zip sites dates).*1.
Proof.
  by rewrite visited_rows_Site, groupby_keys, filter_target_sites_keys.
Qed.

Lemma sites_no_data_elem_of (sites : list string) (dates : list (option Z))
    (today : Z) (s : string) :
  s ∈ sites_no_data targets (visited_rows targets sites dates today) ↔
  s ∈ targets ∧ s ∉ (zip sites dates).*1.
Proof.
  unfold sites_no_data.
  rewrite elem_of_difference, !elem_of_list_to_set, visited_rows_elem_of.
  split.
  - intros [Ht Hn]. split; [done|]. intros Hz. apply Hn. by split.
  - intros [Ht Hn]. split; [done|]. intros [_ Hz]. by apply Hn.
Qed.

Lemma backfill_order_elem_of (sites : list string) (dates : list (option Z))
    (today : Z) (s : string) :
  s ∈ backfill_order targets slot (visited_rows targets sites dates today) ↔
  s ∈ targets ∧ s ∉ (zip sites dates).*1.
Proof.
  unfold backfill_order.
  by rewrite set_iteration_elem_of, sites_no_data_elem_of.
Qed.

(** The sites of the final rows, up to the order of the rows. *)
Lemma analyze_frame_sites (sites : list string) (dates : list (option Z))
    (today : Z) :
  Site <$> (analyze_frame targets concat_dtype slot sites dates today).1
  ≡ₚ ((Site <$> visited_rows targets sites dates today)
      ++ backfill_order targets slot (visited_rows targets sites dates today))%list.
Proof.
  rewrite analyze_frame_rows, sort_values_perm, fmap_app, new_row_Site.
  done.
Qed.

(** What the analyzer returns, when it returns rows: the sheet was read,
    the dates converted, the accessor of line 216 found a column of dates,
    and the report was written. *)
Lemma analyze_Returns (response : sheet_response)
    (report_exception : option exception) (today : Z)
    (rows : list SiteStatus) (stats : summary_stats) :
  analyze_site_visits_from_sheets targets to_datetime concat_dtype slot
    response report_exception today
  = Returns (rows, stats) →
  ∃ df sites cells dates,
    response = Sheet_records df
    ∧ column_Site df = Some sites
    ∧ column_Date df = Some cells
    ∧ convert_Date_column to_datetime df = inr dates
    ∧ (rows, stats) = analyze_frame targets concat_dtype slot sites dates today
    ∧ (latest_visits_frame targets concat_dtype slot sites dates today).2
      = datetime64
    ∧ report_exception = None.
Proof.
  unfold analyze_site_visits_from_sheets, analyze_loaded, outcome_of.
  destruct response as [df| |e]; [|done..].
  cbn [load_data_from_google_sheets].
  destruct (convert_Date_column to_datetime df) as [e|dates] eqn:Hc;
    [done|].
  destruct (column_Site df) as [sites|] eqn:Hs; [|done].
  cbn [bind getitem]. unfold write_report.
  destruct ((latest_visits_frame targets concat_dtype slot sites dates
               today).2) eqn:Hcol; [|done].
  cbn [bind dt_accessor].
  destruct report_exception as [e|]; [done|]. intros Hr.
  destruct (column_Date df) as [cells|] eqn:Hd.
  - exists df, sites, cells, dates. repeat split; try done. congruence.
  - unfold convert_Date_column in Hc. rewrite Hd in Hc. done.
Qed.

End AnalyzerFacts.

(** ** Rows of the result *)

Section Rows.

Context (targets : list string) (concat_dtype : dtype → list (option Z) → dtype)
        (slot : list string → list string → string → Z).
Context (sites : list string) (dates : list (option Z)) (today : Z).

Let rows : list SiteStatus :=
  (analyze_frame targets concat_dtype slot sites dates today).1.

Lemma rows_NoDup : NoDup (Site <$> rows).
Proof.
  unfold rows. rewrite analyze_frame_sites. apply NoDup_app. split_and!.
  - apply visited_rows_NoDup.
  - intros s Hs Hn.
    apply backfill_order_elem_of in Hn as [_ Hn].
    apply visited_rows_elem_of in Hs as [_ Hs]. exact (Hn Hs).
  - apply set_iteration_NoDup.
Qed.

Lemma rows_Site_elem_of (s : string) : s ∈ Site <$> rows ↔ s ∈ targets.
Proof.
  unfold rows.
  rewrite analyze_frame_sites, elem_of_app, backfill_order_elem_of,
    visited_rows_elem_of.
  destruct (decide (s ∈ (zip sites dates).*1)); tauto.
Qed.

(** A row of the result is the row of a group of records, with the latest
    of the dates of the group, or the row of a target site that no record
    names. *)
Lemma rows_elem_of (r : SiteStatus) :
  r ∈ rows ↔
  (r = visited_row today
         (Site r,
          series_max
            (dates_of (Site r) (filter_target_sites targets sites dates)))
   ∧ Site r ∈ targets ∧ Site r ∈ (zip sites dates).*1)
  ∨ (r = new_row (Site r)
     ∧ Site r ∈ targets ∧ Site r ∉ (zip sites dates).*1).
Proof.
  unfold rows.
  rewrite analyze_frame_rows, sort_values_perm, elem_of_app.
  unfold visited_rows. split.
  - intros [Hin|Hin]; apply list_elem_of_fmap in Hin.
    + destruct Hin as [[s d] [-> Hin]]. simpl.
      left. apply groupby_elem_of in Hin as [Hs ->].
      split; [done|]. by apply filter_target_sites_keys.
    + destruct Hin as [s [-> Hin]]. simpl.
      right. apply backfill_order_elem_of in Hin.
      by split.
  - intros [(Hr & Ht & Hz)|(Hr & Ht & Hn)].
    + left. apply list_elem_of_fmap. eexists. split; [exact Hr|].
      apply groupby_elem_of. split; [|done].
      by apply filter_target_sites_keys.
    + right. apply list_elem_of_fmap. exists (Site r). split; [done|].
      by apply backfill_order_elem_of.
Qed.

Lemma rows_visited (r : SiteStatus) (d : Z) :
  r ∈ rows → Last_Visit_Date r = Some d →
  r = visited_row today (Site r, Some d).
Proof.
  intros Hin Hd. apply rows_elem_of in Hin as [(Hr & _)|(Hr & _)].
  - rewrite Hr in Hd. simpl in Hd. rewrite <- Hd. exact Hr.
  - rewrite Hr in Hd. done.
Qed.

End Rows.

Lemma filter_Site_nil (l : list SiteStatus) (s : string) :
  s ∉ Site <$> l → filter (λ x, Site x = s) l = [].
Proof.
  induction l as [|y l IH]; simpl; intros Hn; [done|].
  apply not_elem_of_cons in Hn as [Hy Hn].
  rewrite filter_cons, decide_False by done. by apply IH.
Qed.

(** In a list without two rows of the same site, the rows of the site of one
    of its rows are that row alone. *)
Lemma filter_Site_singleton (l : list SiteStatus) (r : SiteStatus) :
  NoDup (Site <$> l) → r ∈ l → filter (λ x, Site x = Site r) l = [r].
Proof.
  induction l as [|y l IH]; simpl; intros Hnd Hin.
  - by apply elem_of_nil in Hin.
  - apply NoDup_cons in Hnd as [Hy Hnd]. rewrite filter_cons.
    apply elem_of_cons in Hin as [->|Hin].
    + rewrite decide_True by done. f_equal. by apply filter_Site_nil.
    + rewrite decide_False; [by apply IH|].
      intros Heq. apply Hy. rewrite Heq. apply list_elem_of_fmap. by exists r.
Qed.

(** In every row of a result the priority is the class of its number of
    days, and a visit is required exactly above 180 days. *)
Lemma rows_Priority (targets : list string)
    (concat_dtype : dtype → list (option Z) → dtype)
    (slot : list string → list string → string → Z)
    (sites : list string) (dates : list (option Z)) (today : Z)
    (r : SiteStatus) :
  r ∈ (analyze_frame targets concat_dtype slot sites dates today).1 →
  Priority r = apply_get_priority (Days_Since_Visit r)
  ∧ Visit_Required r = days_gt (Days_Since_Visit r) 180.
Proof.
  intros Hin. apply rows_elem_of in Hin as [(-> & _)|(-> & _)]; done.
Qed.

(** ** How a run ends *)

Section Failures.

Context (targets : list string)
        (to_datetime : date_format → list string → option (list (option Z)))
        (concat_dtype : dtype → list (option Z) → dtype)
        (slot : list string → list string → string → Z).


Lemma convert_Date_column_first (df : DataFrame) (cells : list string) :
  column_Date df = Some cells →
  convert_Date_column to_datetime df
  = match first_format_that_parses to_datetime fallback_order cells with
    | Some dates => inr dates
    | None => inl ValueError
    end.
Proof.
  intros Hd. unfold convert_Date_column, pd_to_datetime. rewrite Hd. simpl.
  destruct (to_datetime format_mixed cells); [done|].
  destruct (to_datetime format_mdy cells); [done|].
  destruct (to_datetime format_mdY cells); [done|].
  by destruct (to_datetime infer_datetime_format cells).
Qed.

Lemma first_format_app (before after : list date_format)
    (cells : list string) :
  Forall (λ fmt, to_datetime fmt cells = None) before →
  first_format_that_parses to_datetime (before ++ after) cells
  = first_format_that_parses to_datetime after cells.
Proof.
  induction 1 as [|fmt before Hfmt _ IH]; simpl; [done|]. by rewrite Hfmt.
Qed.

Lemma first_format_None (formats : list date_format) (cells : list string) :
  first_format_that_parses to_datetime formats cells = None ↔
  Forall (λ fmt, to_datetime fmt cells = None) formats.
Proof.
  induction formats as [|fmt formats IH]; simpl.
  - split; [constructor|done].
  - rewrite Forall_cons. destruct (to_datetime fmt cells).
    + split; [done|]. by intros [? _].
    + rewrite IH. split; [done|]. by intros [_ ?].
Qed.


(** A run on a sheet that was read. *)
Lemma analyze_Sheet_records (df : DataFrame)
    (report_exception : option exception) (today : Z) :
  analyze_site_visits_from_sheets targets to_datetime concat_dtype slot
    (Sheet_records df) report_exception today
  = match convert_Date_column to_datetime df with
    | inl e => Raises e
    | inr dates =>
        match column_Site df with
        | None => Raises (KeyError "Site")
        | Some sites =>
            outcome_of
              (write_report
                 (latest_visits_frame targets concat_dtype slot sites dates
                    today).2
                 report_exception
                 (analyze_frame targets concat_dtype slot sites dates today))
        end
    end.
Proof.
  unfold analyze_site_visits_from_sheets, analyze_loaded.
  cbn [load_data_from_google_sheets].
  destruct (convert_Date_column to_datetime df); [done|].
  by destruct (column_Site df).
Qed.




End Failures.

(** * The claims *)

(** ** Classification *)

Lemma get_priority_spec (days : Z) :
  (get_priority days = HIGH ↔ 180 < days)
  ∧ (get_priority days = MEDIUM ↔ 120 < days ≤ 180)
  ∧ (get_priority days = LOW ↔ days ≤ 120).
Proof.
  unfold get_priority.
  destruct (Z.gtb_spec days 180), (Z.gtb_spec days 120);
    repeat split; intros; try done; lia.
Qed.

(** C2: the priority is a function of days-since-visit that splits the
    integers into three disjoint ranges, HIGH above 180, MEDIUM above 120 and
    up to 180, LOW up to 120; 180 days is MEDIUM and 120 days is LOW. *)
Theorem C2_priority_partition (days : Z) :
  (get_priority days = HIGH ↔ 180 < days)
  ∧ (get_priority days = MEDIUM ↔ 120 < days ≤ 180)
  ∧ (get_priority days = LOW ↔ days ≤ 120)
  ∧ get_priority 180 = MEDIUM
  ∧ get_priority 120 = LOW.
Proof.
  destruct (get_priority_spec days) as (Hh & Hm & Hl). by split_and!.
Qed.

(** ** One row per target site *)

(** C1: when the analyzer returns rows, no site occurs in two of them and
    the sites that occur are exactly the target sites: a target site has one
    row and any other site has none, whatever the records of the sheet. *)
Theorem C1_one_row_per_target_site
    (targets : list string)
    (to_datetime : date_format → list string → option (list (option Z)))
    (concat_dtype : dtype → list (option Z) → dtype)
    (slot : list string → list string → string → Z)
    (response : sheet_response) (report_exception : option exception)
    (today : Z) (rows : list SiteStatus) (stats : summary_stats) :
  analyze_site_visits_from_sheets targets to_datetime concat_dtype slot
    response report_exception today
  = Returns (rows, stats) →
  NoDup (Site <$> rows)
  ∧ (∀ s, s ∈ Site <$> rows ↔ s ∈ targets)
  ∧ (∀ s, length (filter (λ r, Site r = s) rows)
          = if decide (s ∈ targets) then 1%nat else 0%nat).
Proof.
  intros Hrun. apply analyze_Returns in Hrun as (df & sites & cells & dates & H).
  destruct H as (_ & _ & _ & _ & Heq & _).
  assert (rows = (analyze_frame targets concat_dtype slot sites dates today).1)
    as -> by by rewrite <- Heq.
  pose proof (rows_NoDup targets concat_dtype slot sites dates today) as Hnd.
  pose proof (rows_Site_elem_of targets concat_dtype slot sites dates today)
    as Hin.
  split_and!; [done..|]. intros s. destruct (decide (s ∈ targets)) as [Hs|Hs].
  - apply Hin, list_elem_of_fmap in Hs as [r [-> Hr]].
    by rewrite filter_Site_singleton.
  - rewrite filter_Site_nil; [done|]. by rewrite Hin.
Qed.

Lemma C1_one_row_per_target_site_witness :
  analyze_site_visits_from_sheets TARGET_SITES example_to_datetime
    lenient_concat_dtype example_slot
    (Sheet_records example_df) None example_today
  = Returns (example_rows, example_stats)
  ∧ NoDup (Site <$> example_rows)
  ∧ (∀ s, s ∈ Site <$> example_rows ↔ s ∈ TARGET_SITES)
  ∧ (∀ s, length (filter (λ r, Site r = s) example_rows)
          = if decide (s ∈ TARGET_SITES) then 1%nat else 0%nat).
Proof.
  split; [vm_compute; reflexivity|].
  apply (C1_one_row_per_target_site TARGET_SITES example_to_datetime
           lenient_concat_dtype example_slot
           (Sheet_records example_df) None example_today example_rows
           example_stats).
  vm_compute; reflexivity.
Defined.

(** ** Sites without a visit *)

(** Whenever the analyzer returns rows, a target site that no record of the
    sheet names has exactly one row, without a date, with 999 days, priority
    HIGH and a visit required. *)
Lemma backfill_missing_site
    (targets : list string)
    (to_datetime : date_format → list string → option (list (option Z)))
    (concat_dtype : dtype → list (option Z) → dtype)
    (slot : list string → list string → string → Z)
    (df : DataFrame) (report_exception : option exception) (today : Z)
    (rows : list SiteStatus) (stats : summary_stats) (s : string) :
  analyze_site_visits_from_sheets targets to_datetime concat_dtype slot
    (Sheet_records df) report_exception today = Returns (rows, stats) →
  s ∈ targets →
  (∀ sites, column_Site df = Some sites → s ∉ sites) →
  filter (λ r, Site r = s) rows = [new_row s].
Proof.
  intros Hrun Hs Hno.
  apply analyze_Returns in Hrun as (df' & sites & cells & dates & H).
  destruct H as ([= <-] & Hsites & _ & _ & Heq & _).
  assert (rows = (analyze_frame targets concat_dtype slot sites dates today).1)
    as -> by by rewrite <- Heq.
  change s with (Site (new_row s)) at 1.
  apply filter_Site_singleton; [apply rows_NoDup|].
  apply rows_elem_of. right. simpl. split_and!; [done..|].
  intros Hz. apply (Hno sites Hsites).
  apply list_elem_of_fmap in Hz as [[s' d] [-> Hz]].
  by apply elem_of_zip_l in Hz.
Qed.

(** C4, where the code fails: on a sheet without a record of a target site
    the rows of lines 185-193 are built, one per target site, without a
    date, with 999 days, priority HIGH and a visit required; no row of the
    frame has a date, its [Last_Visit_Date] column is no column of dates,
    and line 216 raises [AttributeError], so that the run returns nothing.
    The same happens with the single target site AMAG.  Where [pd.concat]
    gives the column the common type of its parts, the run ends in this way
    on every sheet that leaves a target site without a record. *)
Theorem C4_backfill_raises_AttributeError :
  analyze_site_visits_from_sheets TARGET_SITES example_to_datetime
    lenient_concat_dtype example_slot (Sheet_records no_target_df) None
    example_today
  = Raises AttributeError
  ∧ (analyze_frame TARGET_SITES lenient_concat_dtype example_slot
       ["ELSE"] [Some (Timestamp 2024 2 2)] example_today).1
    = new_row <$> TARGET_SITES
  ∧ analyze_site_visits_from_sheets ["AMAG"] example_to_datetime
      lenient_concat_dtype example_slot (Sheet_records no_target_df) None
      example_today
    = Raises AttributeError
  ∧ (analyze_frame ["AMAG"] lenient_concat_dtype example_slot
       ["ELSE"] [Some (Timestamp 2024 2 2)] example_today).1
    = [ {| Site := "AMAG"; Last_Visit_Date := None;
           Days_Since_Visit := Some 999; Visit_Required := true;
           Priority := HIGH |} ]
  ∧ analyze_site_visits_from_sheets TARGET_SITES example_to_datetime
      common_concat_dtype example_slot (Sheet_records example_df) None
      example_today
    = Raises AttributeError.
Proof. split_and!; vm_compute; reflexivity. Qed.

(** ** Days since the last visit *)

Lemma NANOS_PER_DAY_pos : 0 < NANOS_PER_DAY.
Proof. done. Qed.

Lemma Timedelta_days_bounds (delta : Z) :
  Timedelta_days delta * NANOS_PER_DAY ≤ delta
  < (Timedelta_days delta + 1) * NANOS_PER_DAY.
Proof.
  unfold Timedelta_days.
  pose proof (Z.div_mod delta NANOS_PER_DAY) as Hdm.
  pose proof (Z.mod_pos_bound delta NANOS_PER_DAY NANOS_PER_DAY_pos).
  lia.
Qed.


Lemma Timedelta_days_negative (delta : Z) :
  delta < 0 → Timedelta_days delta < 0.
Proof.
  intros Hd. pose proof (Timedelta_days_bounds delta).
  pose proof NANOS_PER_DAY_pos. nia.
Qed.

(** C10: a row whose last visit lies after the reference time has a negative
    number of days, priority LOW and no visit required; every negative
    number of days is classified, as LOW. *)
Theorem C10_future_visit_is_LOW
    (targets : list string)
    (to_datetime : date_format → list string → option (list (option Z)))
    (concat_dtype : dtype → list (option Z) → dtype)
    (slot : list string → list string → string → Z)
    (response : sheet_response) (report_exception : option exception)
    (today : Z) (rows : list SiteStatus) (stats : summary_stats)
    (r : SiteStatus) (d : Z) :
  analyze_site_visits_from_sheets targets to_datetime concat_dtype slot
    response report_exception today
  = Returns (rows, stats) →
  r ∈ rows →
  Last_Visit_Date r = Some d →
  today < d →
  (∃ days, Days_Since_Visit r = Some days ∧ days < 0)
  ∧ Priority r = LOW
  ∧ Visit_Required r = false
  ∧ ∀ days, days < 0 → get_priority days = LOW.
Proof.
  intros Hrun Hin Hd Hlt.
  apply analyze_Returns in Hrun as (df & sites & cells & dates & H).
  destruct H as (_ & _ & _ & _ & Heq & _).
  assert (rows = (analyze_frame targets concat_dtype slot sites dates today).1)
    as -> by by rewrite <- Heq.
  assert (∀ days, days < 0 → get_priority days = LOW) as Hlow.
  { intros days Hneg. apply get_priority_spec. lia. }
  rewrite (rows_visited _ _ _ _ _ _ r d Hin Hd). simpl.
  assert (Timedelta_days (today - d) < 0) as Hneg
    by (apply Timedelta_days_negative; lia).
  split_and!; [by eexists|by apply Hlow| |done].
  destruct (Z.gtb_spec (Timedelta_days (today - d)) 180); [lia|done].
Qed.

Lemma C10_future_visit_is_LOW_witness :
  let r := {| Site := "NANT";
              Last_Visit_Date := Some (Timestamp 2024 6 1);
              Days_Since_Visit := Some (-153);
              Visit_Required := false;
              Priority := LOW |} in
  r ∈ example_early_rows
  ∧ example_early_today < Timestamp 2024 6 1
  ∧ (∃ days, Days_Since_Visit r = Some days ∧ days < 0)
  ∧ Priority r = LOW
  ∧ Visit_Required r = false
  ∧ ∀ days, days < 0 → get_priority days = LOW.
Proof.
  intros r. split; [compute_done|]. split; [done|].
  apply (C10_future_visit_is_LOW TARGET_SITES example_to_datetime
           lenient_concat_dtype example_slot
           (Sheet_records example_df) None example_early_today
           example_early_rows (summarize example_early_rows) r
           (Timestamp 2024 6 1)).
  - vm_compute; reflexivity.
  - compute_done.
  - reflexivity.
  - done.
Defined.

(** ** The scenario of two visits of NANT *)



(** ** The order of the rows *)

Lemma StronglySorted_lookup {A : Type} (R : A → A → Prop) (l : list A)
    (i j : nat) (x y : A) :
  StronglySorted R l → l !! i = Some x → l !! j = Some y → (i < j)%nat →
  R x y.
Proof.
  intros Hs. revert i j. induction Hs as [|z l Hs IH Hz]; intros i j Hi Hj Hij.
  - done.
  - destruct j as [|j]; [lia|]. destruct i as [|i]; simpl in *.
    + injection Hi as <-. rewrite Forall_forall in Hz. apply Hz.
      by eapply list_elem_of_lookup_2.
    + apply (IH i j); [done..|lia].
Qed.

Lemma StronglySorted_weaken {A : Type} (R S : A → A → Prop) (l : list A) :
  (∀ a b, R a b → S a b) → StronglySorted R l → StronglySorted S l.
Proof.
  intros HRS. induction 1 as [|z l Hs IH Hz]; constructor; [done|].
  eapply Forall_impl; [exact Hz|]. intros b. apply HRS.
Qed.

Lemma analyze_frame_sorted (targets : list string)
    (concat_dtype : dtype → list (option Z) → dtype)
    (slot : list string → list string → string → Z)
    (sites : list string) (dates : list (option Z)) (today : Z) :
  StronglySorted in_report_order
    (analyze_frame targets concat_dtype slot sites dates today).1.
Proof.
  rewrite analyze_frame_rows.
  eapply StronglySorted_weaken; [|apply sort_values_sorted].
  intros a b Hab. by apply sort_key_le_spec.
Qed.

(** C3, as far as it holds: the rows are in report order, the priority rank
    never decreasing and, at equal rank, the number of days never
    increasing, with the rows without a number of days last; a row with
    the 999 days of a site without a visit record comes before every row
    whose number of days is below 999 or missing. *)
Theorem C3_rows_in_report_order
    (targets : list string)
    (to_datetime : date_format → list string → option (list (option Z)))
    (concat_dtype : dtype → list (option Z) → dtype)
    (slot : list string → list string → string → Z)
    (response : sheet_response) (report_exception : option exception)
    (today : Z) (rows : list SiteStatus) (stats : summary_stats) :
  analyze_site_visits_from_sheets targets to_datetime concat_dtype slot
    response report_exception today
  = Returns (rows, stats) →
  StronglySorted in_report_order rows
  ∧ ∀ (i j : nat) (x y : SiteStatus),
      rows !! i = Some x → rows !! j = Some y →
      Days_Since_Visit x = Some 999 →
      (∀ days, Days_Since_Visit y = Some days → days < 999) →
      (i < j)%nat.
Proof.
  intros Hrun. apply analyze_Returns in Hrun as (df & sites & cells & dates & H).
  destruct H as (_ & _ & _ & _ & Heq & _).
  assert (rows = (analyze_frame targets concat_dtype slot sites dates today).1)
    as Hrows by by rewrite <- Heq.
  assert (StronglySorted in_report_order rows) as Hsorted.
  { rewrite Hrows. apply analyze_frame_sorted. }
  split; [done|]. intros i j x y Hi Hj Hx Hy.
  assert (Priority x = HIGH) as Hhigh.
  { assert (x ∈ rows) as Hin by by eapply list_elem_of_lookup_2.
    rewrite Hrows in Hin. apply rows_Priority in Hin as [-> _].
    by rewrite Hx. }
  destruct (decide (i < j)%nat) as [|Hge]; [done|]. exfalso.
  destruct (decide (i = j)) as [->|Hne].
  - rewrite Hi in Hj. injection Hj as <-. specialize (Hy 999 Hx). lia.
  - assert (in_report_order y x) as [Hlt|[_ Hle]].
    { apply (StronglySorted_lookup _ rows j i); [done..|lia]. }
    + rewrite Hhigh in Hlt. destruct (Priority y); simpl in Hlt; lia.
    + rewrite Hx in Hle. destruct (Days_Since_Visit y) as [days|]; [|done].
      specialize (Hy days eq_refl). lia.
Qed.

Lemma C3_rows_in_report_order_witness :
  analyze_site_visits_from_sheets TARGET_SITES example_to_datetime
    lenient_concat_dtype example_slot
    (Sheet_records blank_date_df) None example_today
  = Returns (blank_date_rows, summarize blank_date_rows)
  ∧ StronglySorted in_report_order blank_date_rows
  ∧ ∀ (i j : nat) (x y : SiteStatus),
      blank_date_rows !! i = Some x → blank_date_rows !! j = Some y →
      Days_Since_Visit x = Some 999 →
      (∀ days, Days_Since_Visit y = Some days → days < 999) →
      (i < j)%nat.
Proof.
  split; [vm_compute; reflexivity|].
  apply (C3_rows_in_report_order TARGET_SITES example_to_datetime
           lenient_concat_dtype example_slot
           (Sheet_records blank_date_df) None example_today blank_date_rows
           (summarize blank_date_rows)).
  vm_compute; reflexivity.
Defined.

(** C3, as stated, fails: NANT, visited 1674 days before the reference
    time, has priority HIGH and stands in front of the sites without
    data. *)
Lemma C3_no_data_first_counterexample :
  ∃ rows stats,
    analyze_site_visits_from_sheets TARGET_SITES example_to_datetime
      lenient_concat_dtype example_slot
      (Sheet_records old_visits_df) None example_today
    = Returns (rows, stats)
    ∧ rows !! 0%nat
      = Some {| Site := "NANT";
                Last_Visit_Date := Some (Timestamp 2020 1 1);
                Days_Since_Visit := Some 1674;
                Visit_Required := true;
                Priority := HIGH |}
    ∧ rows !! 2%nat
      = Some {| Site := "AMAG";
                Last_Visit_Date := None;
                Days_Since_Visit := Some 999;
                Visit_Required := true;
                Priority := HIGH |}
    ∧ ¬ no_data_first rows.
Proof.
  exists old_visits_rows, (summarize old_visits_rows).
  split; [vm_compute; reflexivity|].
  split; [vm_compute; reflexivity|].
  split; [vm_compute; reflexivity|].
  intros Hfirst.
  specialize (Hfirst 2%nat 0%nat _ _ eq_refl eq_refl).
  simpl in Hfirst. unfold has_data in Hfirst. simpl in Hfirst.
  assert (2 < 0)%nat; [|lia].
  apply Hfirst; [by intros [? ?]|by eexists|done].
Qed.

(** ** The summary statistics *)

(** C5, where the code fails: with NANT visited 1674 days and HOOK 999 days
    before the reference time, and BLCK 61 days before it, three sites have
    a visit date and 20 have none.  The summary tells the sites without
    data by their 999 days: its mean and its maximum are those of BLCK
    alone, 61 and 61, not the mean and the maximum 1674 of the three sites
    with a visit date, and its count of the sites with no data is 21. *)
Theorem C5_sentinel_collision :
  ∃ rows stats,
    analyze_site_visits_from_sheets TARGET_SITES example_to_datetime
      lenient_concat_dtype example_slot
      (Sheet_records old_visits_df) None example_today
    = Returns (rows, stats)
    ∧ omap Days_Since_Visit (filter has_data rows) = [1674; 999; 61]
    ∧ Average_Days_Since_Visit stats = Some (Qmake 61 1)
    ∧ series_mean [1674; 999; 61] = Some (Qmake 2734 3)
    ∧ Maximum_Days_Since_Visit stats = Some 61
    ∧ series_max [1674; 999; 61] = Some 1674
    ∧ Sites_with_No_Data stats = 21%nat
    ∧ length (filter (λ r, ¬ has_data r) rows) = 20%nat.
Proof.
  exists old_visits_rows, (summarize old_visits_rows).
  split_and!; vm_compute; reflexivity.
Qed.

(** ** Date conversion and failures *)

(** C6: the formats are tried in the order mixed, [%m/%d/%y], [%m/%d/%Y],
    inference; the dates of the first format that converts the whole column
    are the dates of the column, and the ones the analysis runs on: the run
    ends as the report of the frame computed from these dates does, and the
    rows it returns are the rows of that frame; when no format converts the
    whole column the analyzer raises the parse error and returns no rows. *)
Theorem C6_date_format_fallback
    (to_datetime : date_format → list string → option (list (option Z)))
    (df : DataFrame) (cells : list string) :
  column_Date df = Some cells →
  fallback_order
  = [format_mixed; format_mdy; format_mdY; infer_datetime_format]
  ∧ (∀ before fmt after dates,
       fallback_order = (before ++ fmt :: after)%list →
       Forall (λ f, to_datetime f cells = None) before →
       to_datetime fmt cells = Some dates →
       convert_Date_column to_datetime df = inr dates
       ∧ ∀ targets concat_dtype slot report_exception today sites,
           column_Site df = Some sites →
           analyze_site_visits_from_sheets targets to_datetime concat_dtype
             slot (Sheet_records df) report_exception today
           = outcome_of
               (write_report
                  (latest_visits_frame targets concat_dtype slot sites dates
                     today).2
                  report_exception
                  (analyze_frame targets concat_dtype slot sites dates today))
           ∧ ∀ r,
               analyze_site_visits_from_sheets targets to_datetime
                 concat_dtype slot (Sheet_records df) report_exception today
               = Returns r →
               r = analyze_frame targets concat_dtype slot sites dates today)
  ∧ (Forall (λ f, to_datetime f cells = None) fallback_order →
     convert_Date_column to_datetime df = inl ValueError
     ∧ ∀ targets concat_dtype slot report_exception today,
         analyze_site_visits_from_sheets targets to_datetime concat_dtype
           slot (Sheet_records df) report_exception today
         = Raises ValueError).
Proof.
  intros Hd. split; [done|]. split.
  - intros before fmt after dates Horder Hbefore Hfmt.
    assert (convert_Date_column to_datetime df = inr dates) as Hconv.
    { rewrite (convert_Date_column_first to_datetime df cells Hd), Horder.
      rewrite first_format_app by done. simpl. by rewrite Hfmt. }
    split; [done|].
    intros targets concat_dtype slot report_exception today sites Hs.
    rewrite analyze_Sheet_records, Hconv, Hs. split; [done|].
    unfold write_report.
    destruct ((latest_visits_frame targets concat_dtype slot sites dates
                 today).2); [|done].
    destruct report_exception; [done|]. cbn. by intros r [= <-].
  - intros Hall.
    assert (convert_Date_column to_datetime df = inl ValueError) as Hconv.
    { rewrite (convert_Date_column_first to_datetime df cells Hd).
      apply first_format_None in Hall. by rewrite Hall. }
    split; [done|]. intros targets concat_dtype slot report_exception today.
    by rewrite analyze_Sheet_records, Hconv.
Qed.

Lemma C6_date_format_fallback_witness :
  column_Date example_df
  = Some ["01/01/24"; "06/01/24"; "12/25/23"; "02/02/24"]
  ∧ strict_to_datetime format_mixed
      ["01/01/24"; "06/01/24"; "12/25/23"; "02/02/24"] = None
  ∧ convert_Date_column strict_to_datetime example_df
    = inr [Some (Timestamp 2024 1 1); Some (Timestamp 2024 6 1);
           Some (Timestamp 2023 12 25); Some (Timestamp 2024 2 2)].
Proof.
  split; [reflexivity|]. split; [reflexivity|].
  apply (C6_date_format_fallback strict_to_datetime example_df
           ["01/01/24"; "06/01/24"; "12/25/23"; "02/02/24"] eq_refl)
    with (before := [format_mixed]) (fmt := format_mdy)
         (after := [format_mdY; infer_datetime_format]).
  - reflexivity.
  - by repeat constructor.
  - vm_compute; reflexivity.
Defined.

Example unreadable_date_raises :
  analyze_site_visits_from_sheets TARGET_SITES example_to_datetime
    lenient_concat_dtype example_slot (Sheet_records unreadable_df) None
    example_today
  = Raises ValueError.
Proof. vm_compute; reflexivity. Qed.



Example unreachable_sheet_returns_None :
  analyze_site_visits_from_sheets TARGET_SITES example_to_datetime
    lenient_concat_dtype example_slot Sheet_exception None example_today
  = ReturnsNone.
Proof. reflexivity. Qed.

Example missing_Date_raises :
  analyze_site_visits_from_sheets TARGET_SITES example_to_datetime
    lenient_concat_dtype example_slot (Sheet_records no_Date_df) None
    example_today
  = Raises (KeyError "Date").
Proof. reflexivity. Qed.

Example missing_Site_raises :
  analyze_site_visits_from_sheets TARGET_SITES example_to_datetime
    lenient_concat_dtype example_slot (Sheet_records no_Site_df) None
    example_today
  = Raises (KeyError "Site").
Proof. vm_compute; reflexivity. Qed.

(** ** Two runs on the same input *)

Lemma agree_up_to_site_refl (a : SiteStatus) : agree_up_to_site a a.
Proof. by repeat split. Qed.

Lemma agree_up_to_site_new_row (s t : string) :
  agree_up_to_site (new_row s) (new_row t).
Proof. repeat split. by intros [? ?]. Qed.

Lemma agree_up_to_site_sort_key (a b c d : SiteStatus) :
  agree_up_to_site a b → agree_up_to_site c d →
  sort_key_le a c = sort_key_le b d.
Proof.
  intros (_ & Hd1 & _ & Hp1 & _) (_ & Hd2 & _ & Hp2 & _).
  unfold sort_key_le. by rewrite Hd1, Hp1, Hd2, Hp2.
Qed.

Lemma Forall2_filter {A : Type} (R : A → A → Prop) (P : A → Prop)
    `{!∀ x, Decision (P x)} (l k : list A) :
  (∀ a b, R a b → P a ↔ P b) →
  Forall2 R l k → Forall2 R (filter P l) (filter P k).
Proof.
  intros HP. induction 1 as [|a b l k Hab Hlk IH]; [constructor|].
  rewrite !filter_cons. specialize (HP a b Hab).
  destruct (decide (P a)), (decide (P b)); try tauto. by constructor.
Qed.

Lemma Forall2_omap_eq {A B : Type} (R : A → A → Prop) (f : A → option B)
    (l k : list A) :
  (∀ a b, R a b → f a = f b) → Forall2 R l k → omap f l = omap f k.
Proof.
  intros Hf. induction 1 as [|a b l k Hab Hlk IH]; [done|].
  rewrite !omap_cons, (Hf a b Hab), IH. done.
Qed.

Lemma summarize_agree (l k : list SiteStatus) :
  Forall2 agree_up_to_site l k → summarize l = summarize k.
Proof.
  intros Hlk. unfold summarize.
  assert (∀ (P : SiteStatus → Prop) `{!∀ x, Decision (P x)},
            (∀ a b, agree_up_to_site a b → P a ↔ P b) →
            length (filter P l) = length (filter P k)) as Hlen.
  { intros P ? HP. eapply Forall2_length, Forall2_filter; done. }
  assert (omap Days_Since_Visit
            (filter (λ r, days_lt (Days_Since_Visit r) 999) l)
          = omap Days_Since_Visit
              (filter (λ r, days_lt (Days_Since_Visit r) 999) k))
    as Hdays.
  { apply (Forall2_omap_eq agree_up_to_site); [by intros a b (_ & ? & _)|].
    apply Forall2_filter; [|done]. intros a b (_ & -> & _). done. }
  rewrite Hdays, (Forall2_length _ _ _ Hlk).
  f_equal; apply Hlen.
  - by intros a b (_ & _ & -> & _).
  - by intros a b (_ & _ & -> & _).
  - by intros a b (_ & _ & _ & -> & _).
  - by intros a b (_ & _ & _ & -> & _).
  - by intros a b (_ & _ & _ & -> & _).
  - by intros a b (_ & -> & _).
Qed.

(** Two runs that differ in the order of the iteration over
    [sites_no_data], and whose lists of target sites have the same
    members. *)
Section TwoRuns.

Context (targets1 targets2 : list string)
        (concat_dtype : dtype → list (option Z) → dtype)
        (slot1 slot2 : list string → list string → string → Z).
Context (sites : list string) (dates : list (option Z)) (today : Z).
Hypothesis same_targets : ∀ s, s ∈ targets1 ↔ s ∈ targets2.

Lemma visited_rows_targets :
  visited_rows targets1 sites dates today
  = visited_rows targets2 sites dates today.
Proof.
  unfold visited_rows, filter_target_sites. do 2 f_equal.
  apply list_filter_iff. intros r. apply same_targets.
Qed.

Lemma backfill_order_perm (latest_visits : list SiteStatus) :
  backfill_order targets1 slot1 latest_visits
  ≡ₚ backfill_order targets2 slot2 latest_visits.
Proof.
  unfold backfill_order, sites_no_data. rewrite !set_iteration_perm.
  assert ((list_to_set targets1 : gset string) = list_to_set targets2) as ->;
    [|done].
  apply set_eq. intros s. rewrite !elem_of_list_to_set. apply same_targets.
Qed.

Lemma analyze_frame_agree :
  Forall2 agree_up_to_site
    (analyze_frame targets1 concat_dtype slot1 sites dates today).1
    (analyze_frame targets2 concat_dtype slot2 sites dates today).1.
Proof.
  rewrite !analyze_frame_rows, visited_rows_targets.
  apply stable_sort_Forall2.
  - apply agree_up_to_site_sort_key.
  - apply Forall2_app.
    + apply Forall_Forall2_diag, Forall_forall. intros r _.
      apply agree_up_to_site_refl.
    + apply Forall2_fmap, Forall2_true.
      * intros s t. apply agree_up_to_site_new_row.
      * by rewrite backfill_order_perm.
Qed.

Lemma analyze_frame_perm :
  (analyze_frame targets1 concat_dtype slot1 sites dates today).1
  ≡ₚ (analyze_frame targets2 concat_dtype slot2 sites dates today).1.
Proof.
  rewrite !analyze_frame_rows, !sort_values_perm, visited_rows_targets.
  by rewrite backfill_order_perm.
Qed.

Lemma analyze_frame_stats_eq :
  (analyze_frame targets1 concat_dtype slot1 sites dates today).2
  = (analyze_frame targets2 concat_dtype slot2 sites dates today).2.
Proof.
  rewrite !analyze_frame_stats. apply summarize_agree, analyze_frame_agree.
Qed.

(** The type of the [Last_Visit_Date] column depends on the number of the
    appended rows, not on their order. *)
Lemma latest_visits_frame_dtype :
  (latest_visits_frame targets1 concat_dtype slot1 sites dates today).2
  = (latest_visits_frame targets2 concat_dtype slot2 sites dates today).2.
Proof.
  unfold latest_visits_frame, add_sites_no_data. cbn [snd].
  fold (visited_rows targets1 sites dates today).
  fold (visited_rows targets2 sites dates today).
  rewrite visited_rows_targets.
  apply foldl_new_row_dtype; [done|].
  apply Permutation_length, backfill_order_perm.
Qed.

End TwoRuns.

(** C8, as far as it holds: two runs on the same answers of the libraries
    and at the same reference time, which can differ in the order of the
    iteration over the set of the sites without data, end in the same way.
    Either both return rows, and then the rows agree position by position,
    except for the site named by a row without a visit date, they are the
    same rows up to their order, and the summary statistics are equal; or
    both return [None], when the sheet was unreachable; or both raise the
    same exception. *)
Theorem C8_two_runs_agree
    (targets : list string)
    (to_datetime : date_format → list string → option (list (option Z)))
    (concat_dtype : dtype → list (option Z) → dtype)
    (slot1 slot2 : list string → list string → string → Z)
    (response : sheet_response) (report_exception : option exception)
    (today : Z) :
  match
    analyze_site_visits_from_sheets targets to_datetime concat_dtype slot1
      response report_exception today,
    analyze_site_visits_from_sheets targets to_datetime concat_dtype slot2
      response report_exception today
  with
  | Returns (rows1, stats1), Returns (rows2, stats2) =>
      Forall2 agree_up_to_site rows1 rows2
      ∧ rows1 ≡ₚ rows2
      ∧ stats1 = stats2
  | ReturnsNone, ReturnsNone => response = Sheet_exception
  | Raises e1, Raises e2 => e1 = e2
  | _, _ => False
  end.
Proof.
  destruct response as [df| |e]; [|done..].
  rewrite !analyze_Sheet_records.
  destruct (convert_Date_column to_datetime df) as [e|dates] eqn:Hc; [done|].
  destruct (column_Site df) as [sites|]; [|done].
  assert (∀ s, s ∈ targets ↔ s ∈ targets) as Hsame by done.
  rewrite (latest_visits_frame_dtype targets targets concat_dtype slot1 slot2
             sites dates today Hsame).
  unfold write_report.
  destruct ((latest_visits_frame targets concat_dtype slot2 sites dates
               today).2); [|done].
  destruct report_exception as [e|]; [done|]. cbn [bind dt_accessor outcome_of].
  pose proof (analyze_frame_agree targets targets concat_dtype slot1 slot2
                sites dates today Hsame).
  pose proof (analyze_frame_perm targets targets concat_dtype slot1 slot2
                sites dates today Hsame).
  pose proof (analyze_frame_stats_eq targets targets concat_dtype slot1 slot2
                sites dates today Hsame).
  destruct (analyze_frame targets concat_dtype slot1 sites dates today)
    as [rows1 stats1].
  destruct (analyze_frame targets concat_dtype slot2 sites dates today)
    as [rows2 stats2].
  done.
Qed.

(** C8, as stated, fails: the same sheet read at the same time with two
    orders of iteration over the set of sites without data gives two
    different sequences of rows; and the run fails without any parse failure
    when the sheet is unreachable or lacks a column. *)
Lemma C8_determinism_counterexample :
  (∃ rows1 stats1 rows2 stats2,
     analyze_site_visits_from_sheets TARGET_SITES example_to_datetime
       lenient_concat_dtype example_slot (Sheet_records example_df) None
       example_today
     = Returns (rows1, stats1)
     ∧ analyze_site_visits_from_sheets TARGET_SITES example_to_datetime
         lenient_concat_dtype reverse_slot (Sheet_records example_df) None
         example_today
       = Returns (rows2, stats2)
     ∧ Site <$> rows1 !! 0%nat = Some "BLCK"
     ∧ Site <$> rows2 !! 0%nat = Some "CMPT"
     ∧ rows1 ≠ rows2)
  ∧ analyze_site_visits_from_sheets TARGET_SITES example_to_datetime
      lenient_concat_dtype example_slot Sheet_exception None example_today
    = ReturnsNone
  ∧ analyze_site_visits_from_sheets TARGET_SITES example_to_datetime
      lenient_concat_dtype example_slot (Sheet_records no_Site_df) None
      example_today
    = Raises (KeyError "Site")
  ∧ analyze_site_visits_from_sheets TARGET_SITES example_to_datetime
      lenient_concat_dtype example_slot (Sheet_records no_Date_df) None
      example_today
    = Raises (KeyError "Date").
Proof.
  split_and!; try (vm_compute; reflexivity).
  eexists _, _, _, _.
  split; [vm_compute; reflexivity|].
  split; [vm_compute; reflexivity|].
  split; [vm_compute; reflexivity|].
  split; [vm_compute; reflexivity|].
  intros Heq. apply (f_equal (λ l, Site <$> l !! 0%nat)) in Heq.
  vm_compute in Heq. discriminate.
Qed.

(** * Properties of the rest of the script *)

(** ** Strings *)

#[local] Arguments String.append !_ _ / : simpl nomatch.

Lemma str_app_assoc (a b c : string) : (a +:+ b) +:+ c = a +:+ (b +:+ c).
Proof. induction a as [|x a IH]; simpl; [done|]. by rewrite IH. Qed.

Lemma str_app_nil_r (a : string) : a +:+ "" = a.
Proof. induction a as [|x a IH]; simpl; [done|]. by rewrite IH. Qed.

Lemma str_app_length (a b : string) :
  String.length (a +:+ b) = (String.length a + String.length b)%nat.
Proof. induction a as [|x a IH]; simpl; [done|]. by rewrite IH. Qed.

Lemma str_prefix_nil_l (s : string) : String.prefix "" s = true.
Proof. by destruct s. Qed.

Lemma str_prefix_cons (x y : ascii) (a b : string) :
  String.prefix (String x a) (String y b)
  = if ascii_dec x y then String.prefix a b else false.
Proof. done. Qed.

Lemma str_prefix_spec (sep s : string) :
  String.prefix sep s = true ↔ ∃ r, s = sep +:+ r.
Proof.
  revert s. induction sep as [|x sep IH]; intros s.
  - rewrite str_prefix_nil_l. split; [by exists s|done].
  - destruct s as [|y s].
    + split; [done|]. by intros [r ?].
    + rewrite str_prefix_cons. destruct (ascii_dec x y) as [->|Hne].
      * rewrite IH. split; intros [r Hr]; exists r; simpl in *; congruence.
      * split; [done|]. intros [r [= ? _]]. done.
Qed.

Lemma str_prefix_app_self (sep r : string) : String.prefix sep (sep +:+ r) = true.
Proof. apply str_prefix_spec. by exists r. Qed.

Lemma str_drop_app (sep r : string) : str_drop (String.length sep) (sep +:+ r) = r.
Proof. induction sep as [|x sep IH]; simpl; [by destruct r|done]. Qed.

Lemma str_prefix_app_long (sep x y : string) :
  (String.length sep ≤ String.length x)%nat →
  String.prefix sep (x +:+ y) = String.prefix sep x.
Proof.
  revert x. induction sep as [|c sep IH]; intros x Hlen.
  - by rewrite !str_prefix_nil_l.
  - destruct x as [|d x]; simpl in *; [lia|].
    destruct (ascii_dec c d); [|done]. apply IH. lia.
Qed.

Lemma str_prefix_nil (sep : string) :
  sep ≠ "" → String.prefix sep "" = false.
Proof. by destruct sep. Qed.

Lemma str_endswith_spec (s suffix : string) :
  str_endswith s suffix = true ↔ ∃ p, s = p +:+ suffix.
Proof.
  induction s as [|c s IH]; cbn [str_endswith].
  - rewrite orb_false_r, String.eqb_eq. split.
    + intros <-. by exists "".
    + intros [p Hp]. destruct p; simpl in Hp; [done|discriminate].
  - rewrite orb_true_iff, String.eqb_eq, IH. split.
    + intros [<-|[p ->]]; [by exists ""|by exists (String c p)].
    + intros [[|d p] Hp]; simpl in Hp; [by left|].
      right. injection Hp as _ ->. by exists p.
Qed.

(** *** The first occurrence of a separator *)

Lemma str_partition_Some (sep s before after : string) :
  str_partition sep s = Some (before, after) →
  s = before +:+ sep +:+ after.
Proof.
  revert before. induction s as [|c s IH]; intros before;
    cbn [str_partition].
  - destruct (String.prefix sep "") eqn:Hp; [|done].
    intros [= <- <-]. apply str_prefix_spec in Hp as [r Hr].
    destruct sep; simpl in Hr; [done|discriminate].
  - destruct (String.prefix sep (String c s)) eqn:Hp.
    + intros [= <- <-]. apply str_prefix_spec in Hp as [r Hr].
      rewrite Hr, str_drop_app. done.
    + destruct (str_partition sep s) as [[b a]|]; [|done].
      intros [= <- <-]. simpl. by rewrite <- (IH b).
Qed.

Lemma str_partition_nil (sep : string) :
  sep ≠ "" → str_partition sep "" = None.
Proof. by destruct sep. Qed.

Lemma str_partition_cons (sep : string) (c : ascii) (s : string) :
  str_partition sep (String c s)
  = if String.prefix sep (String c s)
    then Some ("", str_drop (String.length sep) (String c s))
    else match str_partition sep s with
         | Some (before, after) => Some (String c before, after)
         | None => None
         end.
Proof. done. Qed.

Lemma str_in_nil (sep : string) : sep ≠ "" → str_in sep "" = false.
Proof. intros Hsep. unfold str_in. by rewrite str_partition_nil. Qed.

Lemma str_in_cons_false (sep : string) (c : ascii) (s : string) :
  str_in sep (String c s) = false →
  String.prefix sep (String c s) = false ∧ str_in sep s = false.
Proof.
  unfold str_in. rewrite str_partition_cons.
  destruct (String.prefix sep (String c s)); [done|].
  by destruct (str_partition sep s) as [[??]|].
Qed.

Lemma str_in_cons_true (sep : string) (c : ascii) (s : string) :
  str_in sep s = true → str_in sep (String c s) = true.
Proof.
  unfold str_in. rewrite str_partition_cons.
  destruct (String.prefix sep (String c s)); [done|].
  by destruct (str_partition sep s) as [[??]|].
Qed.

Lemma str_in_app (sep before after : string) :
  str_in sep (before +:+ sep +:+ after) = true.
Proof.
  induction before as [|c before IH].
  - change ("" +:+ sep +:+ after) with (sep +:+ after). unfold str_in.
    destruct (sep +:+ after) as [|x s] eqn:Hs.
    + by destruct sep.
    + by rewrite str_partition_cons, <- Hs, str_prefix_app_self.
  - apply str_in_cons_true, IH.
Qed.

Lemma str_in_spec (sep s : string) :
  str_in sep s = true ↔ ∃ before after, s = before +:+ sep +:+ after.
Proof.
  split.
  - unfold str_in. destruct (str_partition sep s) as [[b a]|] eqn:Hp; [|done].
    intros _. exists b, a. by apply str_partition_Some.
  - intros (b & a & ->). apply str_in_app.
Qed.

(** The text before the first occurrence holds no occurrence. *)
Lemma str_partition_before (sep s before after : string) :
  sep ≠ "" →
  str_partition sep s = Some (before, after) → str_in sep before = false.
Proof.
  intros Hsep. revert before. induction s as [|c s IH]; intros before.
  - by rewrite str_partition_nil.
  - rewrite str_partition_cons.
    destruct (String.prefix sep (String c s)) eqn:Hp.
    + intros [= <- _]. by apply str_in_nil.
    + destruct (str_partition sep s) as [[b a]|] eqn:Hs; [|done].
      intros [= <- <-]. specialize (IH b eq_refl).
      destruct (str_in sep (String c b)) eqn:Hin; [|done].
      apply str_in_spec in Hin as (b' & a' & Hb).
      apply str_partition_Some in Hs.
      destruct b' as [|c' b'].
      * assert (String.prefix sep (String c s) = true) as Hc; [|congruence].
        apply str_prefix_spec. exists (a' +:+ sep +:+ a).
        rewrite Hs. change (String c (b +:+ sep +:+ a))
          with (String c b +:+ sep +:+ a).
        rewrite Hb. simpl. by rewrite !str_app_assoc.
      * simpl in Hb. injection Hb as _ Hb.
        rewrite Hb, str_in_app in IH. done.
Qed.

(** An occurrence that nothing precedes is the first one. *)
Lemma str_partition_first (sep init : string) (last : ascii)
    (p t : string) :
  sep = init +:+ String last "" →
  str_in sep (p +:+ init) = false →
  str_partition sep (p +:+ sep +:+ t) = Some (p, t).
Proof.
  intros Hsep. assert (sep ≠ "") as Hne by (rewrite Hsep; by destruct init).
  induction p as [|c p IH]; intros Hin.
  - change ("" +:+ sep +:+ t) with (sep +:+ t).
    destruct (sep +:+ t) as [|x s] eqn:Hs.
    + destruct sep; [done|discriminate].
    + rewrite str_partition_cons, <- Hs, str_prefix_app_self, str_drop_app.
      done.
  - change (String c p +:+ init) with (String c (p +:+ init)) in Hin.
    apply str_in_cons_false in Hin as [Hp Hin].
    change (String c p +:+ sep +:+ t) with (String c (p +:+ sep +:+ t)).
    rewrite str_partition_cons.
    assert (String c (p +:+ sep +:+ t)
            = String c (p +:+ init) +:+ (String last "" +:+ t)) as Heq.
    { simpl. f_equal. by rewrite Hsep, !str_app_assoc. }
    rewrite Heq at 1. rewrite str_prefix_app_long, Hp.
    + by rewrite (IH Hin).
    + rewrite Hsep. simpl. rewrite !str_app_length. simpl. lia.
Qed.

(** *** Splitting *)

Lemma str_partition_length (sep s before after : string) :
  sep ≠ "" → str_partition sep s = Some (before, after) →
  (String.length after < String.length s)%nat.
Proof.
  intros Hsep Hp. apply str_partition_Some in Hp. rewrite Hp.
  rewrite !str_app_length. destruct sep; [done|]. simpl. lia.
Qed.

Lemma str_split_fuel_enough (sep : string) (fuel1 fuel2 : nat) (s : string) :
  sep ≠ "" →
  (String.length s ≤ fuel1)%nat → (String.length s ≤ fuel2)%nat →
  str_split_fuel fuel1 sep s = str_split_fuel fuel2 sep s.
Proof.
  intros Hsep. revert fuel2 s.
  induction fuel1 as [|fuel1 IH]; intros fuel2 s H1 H2.
  - destruct s; simpl in H1; [|lia].
    destruct fuel2; cbn [str_split_fuel]; [done|].
    by rewrite str_partition_nil.
  - destruct fuel2 as [|fuel2].
    + destruct s; simpl in H2; [|lia]. cbn [str_split_fuel].
      by rewrite str_partition_nil.
    + cbn [str_split_fuel].
      destruct (str_partition sep s) as [[b a]|] eqn:Hp; [|done].
      apply str_partition_length in Hp; [|done].
      f_equal. apply IH; lia.
Qed.

(** [split] cuts at the first occurrence and splits what follows. *)
Lemma str_split_unfold (sep s : string) :
  sep ≠ "" →
  str_split sep s
  = match str_partition sep s with
    | Some (before, after) => before :: str_split sep after
    | None => [s]
    end.
Proof.
  intros Hsep. unfold str_split.
  destruct (str_partition sep s) as [[b a]|] eqn:Hp.
  - pose proof (str_partition_length sep s b a Hsep Hp) as Hlen.
    destruct (String.length s) as [|n] eqn:Hn; [lia|].
    cbn [str_split_fuel]. rewrite Hp. f_equal.
    apply str_split_fuel_enough; [done|lia..].
  - destruct (String.length s); cbn [str_split_fuel]; by rewrite ?Hp.
Qed.

Lemma str_split_head (sep s : string) :
  sep ≠ "" → str_split sep s !! 0%nat = Some (first_piece sep s).
Proof.
  intros Hsep. rewrite str_split_unfold by done. unfold first_piece.
  by destruct (str_partition sep s) as [[b a]|].
Qed.

Lemma str_split_second (sep s before after : string) :
  sep ≠ "" → str_partition sep s = Some (before, after) →
  str_split sep s !! 1%nat = Some (first_piece sep after).
Proof.
  intros Hsep Hp. rewrite str_split_unfold, Hp by done. simpl.
  by apply str_split_head.
Qed.

Lemma first_piece_cons (sep : string) (c : ascii) (s : string) :
  first_piece sep (String c s)
  = if String.prefix sep (String c s) then ""
    else String c (first_piece sep s).
Proof.
  unfold first_piece. rewrite str_partition_cons.
  destruct (String.prefix sep (String c s)); [done|].
  by destruct (str_partition sep s) as [[b a]|].
Qed.

Lemma first_piece_spec (sep s : string) :
  sep ≠ "" →
  str_in sep (first_piece sep s) = false
  ∧ ∃ rest, s = first_piece sep s +:+ rest
            ∧ (rest = "" ∨ String.prefix sep rest = true).
Proof.
  intros Hsep. unfold first_piece.
  destruct (str_partition sep s) as [[b a]|] eqn:Hp.
  - split; [by eapply str_partition_before|].
    exists (sep +:+ a). split; [by apply str_partition_Some|].
    right. apply str_prefix_app_self.
  - split; [unfold str_in; by rewrite Hp|].
    exists "". split; [by rewrite str_app_nil_r|by left].
Qed.

(** Cutting at a separator and then at its first character is cutting at
    that character. *)
Lemma first_piece_first_piece (ch : ascii) (sep' s : string) :
  first_piece (String ch "") (first_piece (String ch sep') s)
  = first_piece (String ch "") s.
Proof.
  induction s as [|c s IH]; [done|].
  rewrite (first_piece_cons (String ch sep')).
  destruct (String.prefix (String ch sep') (String c s)) eqn:Hp.
  - rewrite first_piece_cons. rewrite str_prefix_cons in Hp |- *.
    destruct (ascii_dec ch c); [|done]. by rewrite str_prefix_nil_l.
  - rewrite !(first_piece_cons (String ch "")). rewrite !str_prefix_cons.
    destruct (ascii_dec ch c); [by rewrite !str_prefix_nil_l|].
    by rewrite IH.
Qed.

(** ** The spreadsheet key *)

Lemma extract_spreadsheet_id_eq (spreadsheet_url : string) :
  extract_spreadsheet_id spreadsheet_url
  = Some match str_partition "/d/" spreadsheet_url with
         | Some (_, after) => first_piece "/" after
         | None => spreadsheet_url
         end.
Proof.
  unfold extract_spreadsheet_id, str_in.
  destruct (str_partition "/d/" spreadsheet_url) as [[b a]|] eqn:Hp; [|done].
  rewrite (str_split_second "/d/" spreadsheet_url b a) by done.
  rewrite str_split_head by done. f_equal.
  apply (first_piece_first_piece "/" "d/").
Qed.

(** A text shorter than the separator holds no occurrence of it. *)
Lemma str_in_short (sep s : string) :
  (String.length s < String.length sep)%nat → str_in sep s = false.
Proof.
  intros Hlen. destruct (str_in sep s) eqn:Hin; [|done].
  apply str_in_spec in Hin as (b & a & ->).
  rewrite !str_app_length in Hlen. lia.
Qed.

(** The first occurrence of a separator is the first: no occurrence starts
    in the text before it, not even one that runs into it. *)
Lemma str_partition_before_init (sep init : string) (last : ascii)
    (s before after : string) :
  sep = init +:+ String last "" →
  str_partition sep s = Some (before, after) →
  str_in sep (before +:+ init) = false.
Proof.
  intros Hsep. assert (sep ≠ "") as Hne by (rewrite Hsep; by destruct init).
  revert before. induction s as [|c s IH]; intros before.
  - by rewrite str_partition_nil.
  - rewrite str_partition_cons.
    destruct (String.prefix sep (String c s)) eqn:Hp.
    + intros [= <- _]. change ("" +:+ init) with init.
      apply str_in_short. rewrite Hsep, str_app_length. simpl. lia.
    + destruct (str_partition sep s) as [[b a]|] eqn:Hs; [|done].
      intros [= <- <-]. specialize (IH b eq_refl).
      change (String c b +:+ init) with (String c (b +:+ init)).
      unfold str_in in *. rewrite str_partition_cons.
      apply str_partition_Some in Hs.
      assert (String c s
              = String c (b +:+ init) +:+ (String last "" +:+ a)) as Heq.
      { simpl. f_equal. by rewrite Hs, Hsep, !str_app_assoc. }
      rewrite Heq, str_prefix_app_long in Hp.
      * rewrite Hp. by destruct (str_partition sep (b +:+ init)) as [[??]|].
      * rewrite Hsep. simpl. rewrite !str_app_length. simpl. lia.
Qed.

(** The key is always found: no subscript is out of range.  A URL without
    ["/d/"] is its own key; otherwise the key has no slash and stands in the
    URL right behind the first ["/d/"], up to the next slash or the end. *)
Theorem extract_spreadsheet_id_shape (spreadsheet_url : string) :
  ∃ key,
    extract_spreadsheet_id spreadsheet_url = Some key
    ∧ (str_in "/d/" spreadsheet_url = false → key = spreadsheet_url)
    ∧ (str_in "/d/" spreadsheet_url = true →
       str_in "/" key = false
       ∧ ∃ before rest,
           spreadsheet_url = before +:+ "/d/" +:+ key +:+ rest
           ∧ str_in "/d/" (before +:+ "/d") = false
           ∧ (rest = "" ∨ String.prefix "/" rest = true)).
Proof.
  rewrite extract_spreadsheet_id_eq. eexists. split; [done|].
  unfold str_in.
  destruct (str_partition "/d/" spreadsheet_url) as [[b a]|] eqn:Hp.
  - split; [done|]. intros _.
    destruct (first_piece_spec "/" a) as (Hno & rest & Ha & Hrest); [done|].
    split; [done|]. exists b, rest. split_and!; [| |done].
    + apply str_partition_Some in Hp. by rewrite Hp, Ha at 1.
    + by apply (str_partition_before_init "/d/" "/d" "/" spreadsheet_url b a).
  - by split.
Qed.

Lemma str_in_slash_d (s : string) :
  str_in "/" s = false → str_in "/d/" s = false.
Proof.
  intros Hno. destruct (str_in "/d/" s) eqn:Hin; [|done].
  apply str_in_spec in Hin as (b & a & ->).
  change (b +:+ "/d/" +:+ a) with (b +:+ "/" +:+ ("d/" +:+ a)) in Hno.
  by rewrite str_in_app in Hno.
Qed.

(** Extracting the key of a key gives the key back. *)
Theorem extract_spreadsheet_id_idempotent (spreadsheet_url key : string) :
  extract_spreadsheet_id spreadsheet_url = Some key →
  extract_spreadsheet_id key = Some key.
Proof.
  intros Hkey. pose proof Hkey as Heq.
  rewrite extract_spreadsheet_id_eq in Heq. injection Heq as Heq.
  destruct (str_partition "/d/" spreadsheet_url) as [[b a]|] eqn:Hp.
  - destruct (first_piece_spec "/" a) as [Hslash _]; [done|].
    rewrite Heq in Hslash. unfold extract_spreadsheet_id.
    by rewrite (str_in_slash_d key Hslash).
  - by subst key.
Qed.

(** A URL that has its first ["/d/"] right in front of a key without slash,
    followed by nothing or by a slash, yields that key. *)
Theorem extract_spreadsheet_id_of_url (before key rest : string) :
  str_in "/d/" (before +:+ "/d") = false →
  str_in "/" key = false →
  rest = "" ∨ String.prefix "/" rest = true →
  extract_spreadsheet_id (before +:+ "/d/" +:+ key +:+ rest) = Some key.
Proof.
  intros Hbefore Hkey Hrest. rewrite extract_spreadsheet_id_eq.
  rewrite (str_partition_first "/d/" "/d" "/" before (key +:+ rest))
    by done.
  f_equal. unfold first_piece. destruct Hrest as [->|Hrest].
  - rewrite str_app_nil_r. unfold str_in in Hkey.
    by destruct (str_partition "/" key) as [[??]|].
  - apply str_prefix_spec in Hrest as [r ->].
    rewrite (str_partition_first "/" "" "/" key r); [done..|].
    by rewrite str_app_nil_r.
Qed.

Lemma extract_spreadsheet_id_of_url_witness :
  str_in "/d/" ("https://docs.google.com/spreadsheets" +:+ "/d") = false
  ∧ str_in "/" "1d5zPBR64RKGYmP6SnsuUYg4DJnLJkI7W4FdA7DniJ00" = false
  ∧ extract_spreadsheet_id SPREADSHEET_URL
    = Some "1d5zPBR64RKGYmP6SnsuUYg4DJnLJkI7W4FdA7DniJ00".
Proof.
  split; [vm_compute; reflexivity|]. split; [vm_compute; reflexivity|].
  apply (extract_spreadsheet_id_of_url "https://docs.google.com/spreadsheets"
           "1d5zPBR64RKGYmP6SnsuUYg4DJnLJkI7W4FdA7DniJ00"
           "/edit?usp=sharing").
  - vm_compute; reflexivity.
  - vm_compute; reflexivity.
  - right. vm_compute; reflexivity.
Defined.

Lemma extract_spreadsheet_id_idempotent_witness :
  extract_spreadsheet_id SPREADSHEET_URL
  = Some "1d5zPBR64RKGYmP6SnsuUYg4DJnLJkI7W4FdA7DniJ00"
  ∧ extract_spreadsheet_id "1d5zPBR64RKGYmP6SnsuUYg4DJnLJkI7W4FdA7DniJ00"
    = Some "1d5zPBR64RKGYmP6SnsuUYg4DJnLJkI7W4FdA7DniJ00".
Proof.
  split; [vm_compute; reflexivity|].
  apply (extract_spreadsheet_id_idempotent SPREADSHEET_URL).
  vm_compute; reflexivity.
Defined.

(** ** The service account file *)

Section ServiceAccountFacts.

Context (script_dir : string) (os_path_join : string → string → string)
        (os_listdir : list string) (os_path_exists : string → bool).

Lemma first_existing_Some (names : list string) (json_path : string) :
  first_existing script_dir os_path_join os_path_exists names
  = Some json_path →
  ∃ name, name ∈ names
          ∧ json_path = os_path_join script_dir name
          ∧ os_path_exists json_path = true.
Proof.
  induction names as [|name names IH]; simpl; [done|].
  destruct (os_path_exists (os_path_join script_dir name)) eqn:He.
  - intros [= <-]. exists name. split_and!; [apply list_elem_of_here|done..].
  - intros Hf. destruct (IH Hf) as (n & Hn & Hp). exists n.
    split; [by apply list_elem_of_further|done].
Qed.

Lemma first_existing_None (names : list string) :
  first_existing script_dir os_path_join os_path_exists names = None ↔
  ∀ name, name ∈ names →
          os_path_exists (os_path_join script_dir name) = false.
Proof.
  induction names as [|name names IH]; simpl.
  - split; [|done]. intros _ n Hn. by apply elem_of_nil in Hn.
  - destruct (os_path_exists (os_path_join script_dir name)) eqn:He.
    + split; [done|]. intros Hall.
      rewrite (Hall name) in He by apply list_elem_of_here. done.
    + rewrite IH. split.
      * intros Hall n Hn. apply elem_of_cons in Hn as [->|Hn]; auto.
      * intros Hall n Hn. apply Hall. by apply list_elem_of_further.
Qed.

(** The file that is found has a name that ends in [.json]; it is the key
    file of the script, which exists, or an entry of the directory. *)
Theorem find_service_account_json_sound (json_path : string) :
  find_service_account_json script_dir os_path_join os_listdir os_path_exists
  = Some json_path →
  ∃ name,
    json_path = os_path_join script_dir name
    ∧ (∃ stem, name = stem +:+ ".json")
    ∧ ((name = "dazzling-howl-465916-a1-3199e1fa2c8d.json"
        ∧ os_path_exists json_path = true)
       ∨ name ∈ os_listdir).
Proof.
  unfold find_service_account_json.
  destruct (first_existing script_dir os_path_join os_path_exists json_name)
    as [p|] eqn:Hf.
  - intros [= <-]. apply first_existing_Some in Hf as (name & Hn & -> & He).
    apply list_elem_of_singleton in Hn as ->.
    eexists. split; [done|]. split; [|by left].
    by exists "dazzling-howl-465916-a1-3199e1fa2c8d".
  - destruct (filter (λ f, str_endswith f ".json" = true) os_listdir)
      as [|f fs] eqn:Hfilter; [done|].
    intros [= <-].
    assert (f ∈ filter (λ f, str_endswith f ".json" = true) os_listdir)
      as Hin by (rewrite Hfilter; apply list_elem_of_here).
    apply list_elem_of_filter in Hin as [Hjson Hin].
    exists f. split; [done|]. split; [|by right].
    by apply str_endswith_spec.
Qed.

(** No file is found exactly when the key file does not exist and no entry
    of the directory has a name that ends in [.json]. *)
Theorem find_service_account_json_None :
  find_service_account_json script_dir os_path_join os_listdir os_path_exists
  = None ↔
  os_path_exists
    (os_path_join script_dir "dazzling-howl-465916-a1-3199e1fa2c8d.json")
  = false
  ∧ ∀ f stem, f ∈ os_listdir → f ≠ stem +:+ ".json".
Proof.
  unfold find_service_account_json.
  destruct (first_existing script_dir os_path_join os_path_exists json_name)
    as [p|] eqn:Hf.
  - split; [done|]. intros [He _].
    apply first_existing_Some in Hf as (name & Hn & -> & He').
    apply list_elem_of_singleton in Hn as ->. congruence.
  - pose proof (proj1 (first_existing_None json_name) Hf) as Hkey.
    specialize (Hkey _ (list_elem_of_here _ _)).
    destruct (filter (λ f, str_endswith f ".json" = true) os_listdir)
      as [|f fs] eqn:Hfilter.
    + split; [|done]. intros _. split; [done|]. intros f stem Hin ->.
      assert (stem +:+ ".json"
              ∈ filter (λ f, str_endswith f ".json" = true) os_listdir)
        as Hc; [|by rewrite Hfilter in Hc; apply elem_of_nil in Hc].
      apply list_elem_of_filter. split; [|done].
      apply str_endswith_spec. by exists stem.
    + split; [done|]. intros [_ Hall].
      assert (f ∈ filter (λ f, str_endswith f ".json" = true) os_listdir)
        as Hin by (rewrite Hfilter; apply list_elem_of_here).
      apply list_elem_of_filter in Hin as [Hjson Hin].
      apply str_endswith_spec in Hjson as [stem ->].
      by destruct (Hall _ stem Hin).
Qed.

Lemma filter_endswith_nil (entries : list string) :
  (∀ g stem, g ∈ entries → g ≠ stem +:+ ".json") →
  filter (λ f, str_endswith f ".json" = true) entries = [].
Proof.
  induction entries as [|g gs IH]; intros Hno; [done|].
  rewrite filter_cons, decide_False.
  - apply IH. intros g' stem Hg'. apply Hno. by apply list_elem_of_further.
  - intros Hg. apply str_endswith_spec in Hg as [stem Hg].
    by apply (Hno g stem); [apply list_elem_of_here|].
Qed.

(** Without the key file, the file that is found is the first entry of the
    directory listing with a name that ends in [.json]. *)
Theorem find_service_account_json_first (entries_before entries_after
    : list string) (f : string) :
  os_path_exists
    (os_path_join script_dir "dazzling-howl-465916-a1-3199e1fa2c8d.json")
  = false →
  os_listdir = (entries_before ++ f :: entries_after)%list →
  (∀ g stem, g ∈ entries_before → g ≠ stem +:+ ".json") →
  (∃ stem, f = stem +:+ ".json") →
  find_service_account_json script_dir os_path_join os_listdir os_path_exists
  = Some (os_path_join script_dir f).
Proof.
  intros He Hdir Hbefore Hf. unfold find_service_account_json.
  simpl. rewrite He, Hdir, filter_app, filter_cons.
  rewrite (filter_endswith_nil entries_before Hbefore).
  rewrite decide_True; [done|]. by apply str_endswith_spec.
Qed.

End ServiceAccountFacts.

Lemma find_service_account_json_sound_witness :
  find_service_account_json "/srv/report" (λ a b, a +:+ "/" +:+ b)
    ["notes.txt"; "key.json"; "old.json"] (λ _, false)
  = Some "/srv/report/key.json"
  ∧ ∃ name,
      "/srv/report/key.json" = "/srv/report" +:+ "/" +:+ name
      ∧ (∃ stem, name = stem +:+ ".json")
      ∧ ((name = "dazzling-howl-465916-a1-3199e1fa2c8d.json"
          ∧ (λ _ : string, false) "/srv/report/key.json" = true)
         ∨ name ∈ ["notes.txt"; "key.json"; "old.json"]).
Proof.
  split; [vm_compute; reflexivity|].
  apply (find_service_account_json_sound "/srv/report"
           (λ a b, a +:+ "/" +:+ b) ["notes.txt"; "key.json"; "old.json"]
           (λ _, false) "/srv/report/key.json").
  vm_compute; reflexivity.
Defined.

Lemma find_service_account_json_first_witness :
  find_service_account_json "/srv/report" (λ a b, a +:+ "/" +:+ b)
    ["notes.txt"; "key.json"; "old.json"] (λ _, false)
  = Some "/srv/report/key.json".
Proof.
  apply (find_service_account_json_first "/srv/report"
           (λ a b, a +:+ "/" +:+ b) ["notes.txt"; "key.json"; "old.json"]
           (λ _, false) ["notes.txt"] ["old.json"] "key.json").
  - reflexivity.
  - reflexivity.
  - intros g stem Hg%list_elem_of_singleton Heq. subst g.
    assert (str_endswith "notes.txt" ".json" = true) as Hc
      by (apply str_endswith_spec; by exists stem).
    vm_compute in Hc. discriminate.
  - by exists "key".
Defined.
(** ** More on the rows of a result *)

Lemma filter_ext_elem_of {A : Type} (P Q : A → Prop)
    `{!∀ x, Decision (P x)} `{!∀ x, Decision (Q x)} (l : list A) :
  (∀ x, x ∈ l → P x ↔ Q x) → filter P l = filter Q l.
Proof.
  induction l as [|y l IH]; intros Heq; [done|].
  rewrite !filter_cons.
  assert (filter P l = filter Q l) as ->.
  { apply IH. intros x Hx. apply Heq. by apply list_elem_of_further. }
  destruct (decide (P y)) as [Hp|Hp], (decide (Q y)) as [Hq|Hq]; try done.
  - exfalso. apply Hq. by apply (Heq y); [apply list_elem_of_here|].
  - exfalso. apply Hp. by apply (Heq y); [apply list_elem_of_here|].
Qed.

Lemma length_filter_complement {A : Type} (P : A → Prop)
    `{!∀ x, Decision (P x)} (l : list A) :
  (length (filter P l) + length (filter (λ x, ¬ P x) l))%nat = length l.
Proof. by rewrite <- length_app, filter_app_complement. Qed.

Lemma length_filter_priority (l : list SiteStatus) :
  (length (filter (λ r, Priority r = HIGH) l)
   + length (filter (λ r, Priority r = MEDIUM) l)
   + length (filter (λ r, Priority r = LOW) l))%nat = length l.
Proof.
  induction l as [|x l IH]; [done|].
  rewrite !filter_cons. destruct (Priority x); simpl; lia.
Qed.

Lemma rows_Visit_Required_HIGH (targets : list string)
    (concat_dtype : dtype → list (option Z) → dtype)
    (slot : list string → list string → string → Z)
    (sites : list string) (dates : list (option Z)) (today : Z)
    (r : SiteStatus) :
  r ∈ (analyze_frame targets concat_dtype slot sites dates today).1 →
  Visit_Required r = true ↔ Priority r = HIGH.
Proof.
  intros Hin. destruct (rows_Priority _ _ _ _ _ _ r Hin) as [-> ->].
  destruct (Days_Since_Visit r) as [days|]; simpl; [|done].
  destruct (get_priority_spec days) as (Hh & _).
  rewrite Hh. destruct (Z.gtb_spec days 180); split;
    intros; try done; lia.
Qed.

(** The counts of the summary add up: the sites that require a visit and the
    sites that are OK are all the sites, so are the sites of the three
    priorities, and the sites that require a visit are the sites of
    priority HIGH. *)
Theorem summary_counts_add_up
    (targets : list string)
    (to_datetime : date_format → list string → option (list (option Z)))
    (concat_dtype : dtype → list (option Z) → dtype)
    (slot : list string → list string → string → Z)
    (response : sheet_response) (report_exception : option exception)
    (today : Z) (rows : list SiteStatus) (stats : summary_stats) :
  analyze_site_visits_from_sheets targets to_datetime concat_dtype slot
    response report_exception today
  = Returns (rows, stats) →
  (Sites_Requiring_Visit stats + Sites_OK stats)%nat
  = Total_Target_Sites stats
  ∧ (High_Priority stats + Medium_Priority stats + Low_Priority stats)%nat
    = Total_Target_Sites stats
  ∧ Sites_Requiring_Visit stats = High_Priority stats.
Proof.
  intros Hrun. apply analyze_Returns in Hrun as (df & sites & cells & dates & H).
  destruct H as (_ & _ & _ & _ & Heq & _).
  assert (rows = (analyze_frame targets concat_dtype slot sites dates today).1)
    as Hrows by by rewrite <- Heq.
  assert (stats = summarize rows) as ->.
  { rewrite Hrows, <- analyze_frame_stats. by rewrite <- Heq. }
  unfold summarize.
  cbn [Total_Target_Sites Sites_Requiring_Visit Sites_OK High_Priority
       Medium_Priority Low_Priority].
  split_and!.
  - apply (length_filter_complement (λ r, Visit_Required r = true)).
  - apply length_filter_priority.
  - f_equal. apply filter_ext_elem_of. intros r Hr. rewrite Hrows in Hr.
    by eapply rows_Visit_Required_HIGH.
Qed.

Lemma summary_counts_add_up_witness :
  analyze_site_visits_from_sheets TARGET_SITES example_to_datetime
    lenient_concat_dtype example_slot (Sheet_records example_df) None
    example_today
  = Returns (example_rows, example_stats)
  ∧ (Sites_Requiring_Visit example_stats + Sites_OK example_stats)%nat
    = Total_Target_Sites example_stats
  ∧ (High_Priority example_stats + Medium_Priority example_stats
     + Low_Priority example_stats)%nat
    = Total_Target_Sites example_stats
  ∧ Sites_Requiring_Visit example_stats = High_Priority example_stats.
Proof.
  split; [vm_compute; reflexivity|].
  apply (summary_counts_add_up TARGET_SITES example_to_datetime
           lenient_concat_dtype example_slot (Sheet_records example_df) None
           example_today example_rows example_stats).
  vm_compute; reflexivity.
Defined.

Lemma elem_of_dates_of (s : string) (d : Z)
    (data : list (string * option Z)) :
  d ∈ dates_of s data ↔ (s, Some d) ∈ data.
Proof.
  unfold dates_of. rewrite list_elem_of_omap. split.
  - intros [[s' d'] [Hin Hd]]. apply list_elem_of_filter in Hin as [Hs Hin].
    simpl in *. by subst.
  - intros Hin. exists (s, Some d). split; [|done].
    by apply list_elem_of_filter.
Qed.

(** The visit date of a row is a date of a record of its site, and no
    record of the site has a later date; a target site that a record with
    a date names has a row with a visit date; a target site that records
    name, but none with a date, has a row without a date and without a
    number of days, of priority LOW and with no visit required. *)
Theorem last_visit_is_latest_record
    (targets : list string)
    (to_datetime : date_format → list string → option (list (option Z)))
    (concat_dtype : dtype → list (option Z) → dtype)
    (slot : list string → list string → string → Z)
    (df : DataFrame) (report_exception : option exception) (today : Z)
    (rows : list SiteStatus) (stats : summary_stats)
    (sites : list string) (dates : list (option Z)) :
  analyze_site_visits_from_sheets targets to_datetime concat_dtype slot
    (Sheet_records df) report_exception today = Returns (rows, stats) →
  column_Site df = Some sites →
  convert_Date_column to_datetime df = inr dates →
  (∀ r d, r ∈ rows → Last_Visit_Date r = Some d →
          (Site r, Some d) ∈ zip sites dates
          ∧ ∀ d', (Site r, Some d') ∈ zip sites dates → d' ≤ d)
  ∧ (∀ s d, s ∈ targets → (s, Some d) ∈ zip sites dates →
            ∃ r, r ∈ rows ∧ Site r = s ∧ has_data r)
  ∧ (∀ s, s ∈ targets → (s, None) ∈ zip sites dates →
          (∀ d, (s, Some d) ∉ zip sites dates) →
          {| Site := s; Last_Visit_Date := None; Days_Since_Visit := None;
             Visit_Required := false; Priority := LOW |} ∈ rows).
Proof.
  intros Hrun Hsites Hdates.
  apply analyze_Returns in Hrun as (df' & sites' & cells & dates' & H).
  destruct H as ([= <-] & Hsites' & _ & Hdates' & Heq & _).
  assert (sites' = sites) as -> by congruence.
  assert (dates' = dates) as -> by congruence.
  assert (rows = (analyze_frame targets concat_dtype slot sites dates today).1)
    as -> by by rewrite <- Heq.
  split_and!.
  - intros r d Hin Hd.
    apply rows_elem_of in Hin as [(Hr & Ht & _)|(Hr & _)];
      [|by rewrite Hr in Hd].
    rewrite Hr in Hd. cbn [visited_row Last_Visit_Date snd] in Hd.
    apply series_max_Some in Hd as [Hmem Hle]. split.
    + apply elem_of_dates_of, list_elem_of_filter in Hmem. tauto.
    + intros d' Hd'. rewrite Forall_forall in Hle. apply Hle.
      apply elem_of_dates_of, list_elem_of_filter. by split.
  - intros s d Hs Hin.
    assert (d ∈ dates_of s (filter_target_sites targets sites dates)) as Hmem.
    { apply elem_of_dates_of, list_elem_of_filter. by split. }
    destruct (series_max
                (dates_of s (filter_target_sites targets sites dates)))
      as [m|] eqn:Hmax.
    + exists (visited_row today (s, Some m)). split_and!; [|done|by eexists].
      apply rows_elem_of. left. cbn [visited_row Site fst].
      rewrite Hmax. split_and!; [done..|].
      apply list_elem_of_fmap. by exists (s, Some d).
    + apply series_max_None in Hmax. rewrite Hmax in Hmem.
      by apply elem_of_nil in Hmem.
  - intros s Hs Hin Hnone.
    change {| Site := s; Last_Visit_Date := None; Days_Since_Visit := None;
              Visit_Required := false; Priority := LOW |}
      with (visited_row today (s, None)).
    apply rows_elem_of. left. cbn [visited_row Site fst].
    split_and!; [|done|].
    + destruct (series_max
                  (dates_of s (filter_target_sites targets sites dates)))
        as [m|] eqn:Hmax; [|done].
      apply series_max_Some in Hmax as [Hmem _].
      apply elem_of_dates_of, list_elem_of_filter in Hmem as [_ Hmem].
      by apply Hnone in Hmem.
    + apply list_elem_of_fmap. by exists (s, None).
Qed.

Lemma last_visit_is_latest_record_witness :
  let sites := ["NANT"; "HOOK"] in
  let dates := [Some (Timestamp 2024 6 1); None] in
  analyze_site_visits_from_sheets TARGET_SITES example_to_datetime
    lenient_concat_dtype example_slot (Sheet_records blank_date_df) None
    example_today
  = Returns (blank_date_rows, summarize blank_date_rows)
  ∧ (∀ r d, r ∈ blank_date_rows → Last_Visit_Date r = Some d →
            (Site r, Some d) ∈ zip sites dates
            ∧ ∀ d', (Site r, Some d') ∈ zip sites dates → d' ≤ d)
  ∧ (∀ s d, s ∈ TARGET_SITES → (s, Some d) ∈ zip sites dates →
            ∃ r, r ∈ blank_date_rows ∧ Site r = s ∧ has_data r)
  ∧ (∀ s, s ∈ TARGET_SITES → (s, None) ∈ zip sites dates →
          (∀ d, (s, Some d) ∉ zip sites dates) →
          {| Site := s; Last_Visit_Date := None; Days_Since_Visit := None;
             Visit_Required := false; Priority := LOW |} ∈ blank_date_rows).
Proof.
  intros sites dates. split; [vm_compute; reflexivity|].
  apply (last_visit_is_latest_record TARGET_SITES example_to_datetime
           lenient_concat_dtype example_slot blank_date_df None example_today
           blank_date_rows (summarize blank_date_rows) sites dates).
  - vm_compute; reflexivity.
  - reflexivity.
  - vm_compute; reflexivity.
Defined.

Lemma Timedelta_days_ge (delta days : Z) :
  days ≤ Timedelta_days delta ↔ days * NANOS_PER_DAY ≤ delta.
Proof.
  pose proof (Timedelta_days_bounds delta). pose proof NANOS_PER_DAY_pos.
  split; intros; nia.
Qed.

(** The thresholds in elapsed time: a row with a visit date requires a visit,
    and is HIGH, exactly when at least 181 whole days lie between the visit
    and the reference time; it is MEDIUM from 121 whole days on and LOW
    below. *)
Theorem priority_by_elapsed_time
    (targets : list string)
    (to_datetime : date_format → list string → option (list (option Z)))
    (concat_dtype : dtype → list (option Z) → dtype)
    (slot : list string → list string → string → Z)
    (response : sheet_response) (report_exception : option exception)
    (today : Z) (rows : list SiteStatus) (stats : summary_stats)
    (r : SiteStatus) (d : Z) :
  analyze_site_visits_from_sheets targets to_datetime concat_dtype slot
    response report_exception today
  = Returns (rows, stats) →
  r ∈ rows →
  Last_Visit_Date r = Some d →
  (Visit_Required r = true ↔ 181 * NANOS_PER_DAY ≤ today - d)
  ∧ (Priority r = HIGH ↔ 181 * NANOS_PER_DAY ≤ today - d)
  ∧ (Priority r = MEDIUM ↔
     121 * NANOS_PER_DAY ≤ today - d < 181 * NANOS_PER_DAY)
  ∧ (Priority r = LOW ↔ today - d < 121 * NANOS_PER_DAY).
Proof.
  intros Hrun Hin Hd.
  apply analyze_Returns in Hrun as (df & sites & cells & dates & H).
  destruct H as (_ & _ & _ & _ & Heq & _).
  assert (rows = (analyze_frame targets concat_dtype slot sites dates today).1)
    as Hrows by by rewrite <- Heq.
  rewrite Hrows in Hin.
  pose proof (rows_Visit_Required_HIGH _ _ _ _ _ _ r Hin) as Hvr.
  rewrite (rows_visited _ _ _ _ _ _ r d Hin Hd) in Hvr |- *.
  cbn [visited_row Priority Visit_Required fst snd fmap option_fmap
       option_map apply_get_priority] in *.
  destruct (get_priority_spec (Timedelta_days (today - d))) as (Hh & Hm & Hl).
  pose proof (Timedelta_days_ge (today - d) 181) as H181.
  pose proof (Timedelta_days_ge (today - d) 121) as H121.
  rewrite Hvr, Hh, Hm, Hl. split_and!; lia.
Qed.

Lemma priority_by_elapsed_time_witness :
  let r := {| Site := "HOOK";
              Last_Visit_Date := Some (Timestamp 2023 12 25);
              Days_Since_Visit := Some 220;
              Visit_Required := true;
              Priority := HIGH |} in
  r ∈ example_rows
  ∧ (Visit_Required r = true ↔
     181 * NANOS_PER_DAY ≤ example_today - Timestamp 2023 12 25)
  ∧ (Priority r = HIGH ↔
     181 * NANOS_PER_DAY ≤ example_today - Timestamp 2023 12 25)
  ∧ (Priority r = MEDIUM ↔
     121 * NANOS_PER_DAY ≤ example_today - Timestamp 2023 12 25
     < 181 * NANOS_PER_DAY)
  ∧ (Priority r = LOW ↔
     example_today - Timestamp 2023 12 25 < 121 * NANOS_PER_DAY).
Proof.
  intros r. split; [compute_done|].
  apply (priority_by_elapsed_time TARGET_SITES example_to_datetime
           lenient_concat_dtype example_slot (Sheet_records example_df) None
           example_today example_rows example_stats r (Timestamp 2023 12 25)).
  - vm_compute; reflexivity.
  - compute_done.
  - reflexivity.
Defined.

(** ** What the result depends on *)

Lemma series_max_perm (l k : list Z) : l ≡ₚ k → series_max l = series_max k.
Proof.
  intros Hlk. destruct (series_max l) as [m|] eqn:Hl.
  - apply series_max_Some in Hl as [Hm Hle]. rewrite Hlk in Hm, Hle.
    destruct (series_max k) as [n|] eqn:Hk.
    + apply series_max_Some in Hk as [Hn Hge].
      rewrite Forall_forall in Hle, Hge.
      specialize (Hle n Hn). specialize (Hge m Hm). f_equal. lia.
    + apply series_max_None in Hk. rewrite Hk in Hm.
      by apply elem_of_nil in Hm.
  - apply series_max_None in Hl. subst l.
    apply Permutation.Permutation_nil in Hlk. by subst k.
Qed.

Lemma omap_perm {A B : Type} (f : A → option B) (l k : list A) :
  l ≡ₚ k → omap f l ≡ₚ omap f k.
Proof.
  induction 1 as [|x l k _ IH|x y l|l1 l2 l3 _ IH1 _ IH2].
  - done.
  - rewrite !omap_cons. destruct (f x); [by constructor|done].
  - rewrite !omap_cons. destruct (f x), (f y); try done. apply perm_swap.
  - by etrans.
Qed.

Lemma group_max_perm (data1 data2 : list (string * option Z)) :
  data1 ≡ₚ data2 → group_max data1 = group_max data2.
Proof.
  intros Hperm. apply map_eq. intros s. rewrite !group_max_lookup.
  assert (series_max (dates_of s data1) = series_max (dates_of s data2))
    as ->.
  { apply series_max_perm. unfold dates_of. apply omap_perm.
    by rewrite Hperm. }
  destruct (decide (s ∈ data1.*1)) as [H1|H1],
           (decide (s ∈ data2.*1)) as [H2|H2]; try done;
    exfalso; rewrite Hperm in H1; done.
Qed.

(** The result depends on the records of the target sites only, and not on
    their order in the sheet: two sheets whose records of target sites are
    the same up to order give the same rows and statistics. *)
Theorem result_depends_on_target_records
    (targets : list string) (concat_dtype : dtype → list (option Z) → dtype)
    (slot : list string → list string → string → Z) (today : Z)
    (sites1 sites2 : list string) (dates1 dates2 : list (option Z)) :
  filter (λ r, r.1 ∈ targets) (zip sites1 dates1)
  ≡ₚ filter (λ r, r.1 ∈ targets) (zip sites2 dates2) →
  analyze_frame targets concat_dtype slot sites1 dates1 today
  = analyze_frame targets concat_dtype slot sites2 dates2 today.
Proof.
  intros Hperm.
  unfold analyze_frame, latest_visits_frame, groupby_Site_Date_max.
  by rewrite (group_max_perm (filter_target_sites targets sites1 dates1)
                (filter_target_sites targets sites2 dates2) Hperm).
Qed.

Lemma result_depends_on_target_records_witness :
  analyze_frame TARGET_SITES lenient_concat_dtype example_slot
    ["NANT"; "NANT"; "HOOK"; "ELSE"] [Some 1; Some 5; Some 3; Some 4] 10
  = analyze_frame TARGET_SITES lenient_concat_dtype example_slot
      ["HOOK"; "NANT"; "OTHER"; "NANT"] [Some 3; Some 5; Some 9; Some 1] 10.
Proof.
  apply (result_depends_on_target_records TARGET_SITES lenient_concat_dtype
           example_slot 10
           ["NANT"; "NANT"; "HOOK"; "ELSE"] ["HOOK"; "NANT"; "OTHER"; "NANT"]
           [Some 1; Some 5; Some 3; Some 4] [Some 3; Some 5; Some 9; Some 1]).
  vm_compute.
  apply (Permutation_trans
           (l' := [("NANT", Some 1); ("HOOK", Some 3); ("NANT", Some 5)])).
  - apply perm_skip, perm_swap.
  - apply (Permutation_trans
             (l' := [("HOOK", Some 3); ("NANT", Some 1); ("NANT", Some 5)])).
    + apply perm_swap.
    + apply perm_skip, perm_swap.
Defined.

(** Neither the order of [TARGET_SITES] nor a site listed twice changes the
    result, apart from the order of the rows of the sites without a record,
    which follows the iteration over a set built from the list: the rows
    agree position by position, except for the site named by a row without
    a visit date, they are the same rows up to their order, and the
    statistics are equal. *)
Theorem result_depends_on_target_set
    (targets1 targets2 : list string) (concat_dtype : dtype → list (option Z) → dtype)
    (slot : list string → list string → string → Z) (today : Z)
    (sites : list string) (dates : list (option Z)) :
  (∀ s, s ∈ targets1 ↔ s ∈ targets2) →
  Forall2 agree_up_to_site
    (analyze_frame targets1 concat_dtype slot sites dates today).1
    (analyze_frame targets2 concat_dtype slot sites dates today).1
  ∧ (analyze_frame targets1 concat_dtype slot sites dates today).1
    ≡ₚ (analyze_frame targets2 concat_dtype slot sites dates today).1
  ∧ (analyze_frame targets1 concat_dtype slot sites dates today).2
    = (analyze_frame targets2 concat_dtype slot sites dates today).2.
Proof.
  intros Hsame. split_and!.
  - by apply analyze_frame_agree.
  - by apply analyze_frame_perm.
  - by apply analyze_frame_stats_eq.
Qed.

Lemma result_depends_on_target_set_witness :
  let rows1 :=
    (analyze_frame ["NANT"; "HOOK"; "AMAG"] lenient_concat_dtype example_slot
       ["NANT"; "ELSE"] [Some 1; Some 4] 10).1 in
  let rows2 :=
    (analyze_frame ["AMAG"; "NANT"; "AMAG"; "HOOK"] lenient_concat_dtype
       example_slot ["NANT"; "ELSE"] [Some 1; Some 4] 10).1 in
  Site <$> rows1 = ["HOOK"; "AMAG"; "NANT"]
  ∧ Site <$> rows2 = ["AMAG"; "HOOK"; "NANT"]
  ∧ Forall2 agree_up_to_site rows1 rows2
  ∧ rows1 ≡ₚ rows2
  ∧ summarize rows1 = summarize rows2.
Proof.
  intros rows1 rows2.
  split; [vm_compute; reflexivity|]. split; [vm_compute; reflexivity|].
  apply (result_depends_on_target_set ["NANT"; "HOOK"; "AMAG"]
           ["AMAG"; "NANT"; "AMAG"; "HOOK"] lenient_concat_dtype example_slot
           10 ["NANT"; "ELSE"] [Some 1; Some 4]).
  intros s. rewrite !elem_of_cons, !elem_of_nil. tauto.
Defined.

(** ** The report *)

Lemma filter_priority_nil (l : list SiteStatus) (p : priority) :
  Forall (λ r, Priority r ≠ p) l → filter (λ r, Priority r = p) l = [].
Proof.
  induction 1 as [|x l Hx _ IH]; [done|].
  by rewrite filter_cons, decide_False.
Qed.

(** In report order the priorities are a run of HIGH, a run of MEDIUM and a
    run of LOW. *)
Lemma sorted_priority_runs (l : list SiteStatus) :
  StronglySorted in_report_order l →
  Priority <$> l
  = (replicate (length (filter (λ r, Priority r = HIGH) l)) HIGH
     ++ replicate (length (filter (λ r, Priority r = MEDIUM) l)) MEDIUM
     ++ replicate (length (filter (λ r, Priority r = LOW) l)) LOW)%list.
Proof.
  induction 1 as [|x l Hs IH Hx]; [done|].
  rewrite fmap_cons, IH, !filter_cons.
  assert (Forall (λ r, priority_order (Priority x)
                       ≤ priority_order (Priority r)) l) as Hrank.
  { eapply Forall_impl; [exact Hx|]. intros r [?|[? _]]; lia. }
  destruct (Priority x) eqn:Hp; simpl.
  - done.
  - rewrite (filter_priority_nil l HIGH); [done|].
    eapply Forall_impl; [exact Hrank|]. intros r Hr Heq.
    simpl in Hr. rewrite Heq in Hr. simpl in Hr. lia.
  - rewrite (filter_priority_nil l HIGH), (filter_priority_nil l MEDIUM);
      [done| |];
      (eapply Forall_impl; [exact Hrank|]; intros r Hr Heq;
       simpl in Hr; rewrite Heq in Hr; simpl in Hr; lia).
Qed.

(** The priorities of the rows of a result are as many HIGH as the summary
    counts, then as many MEDIUM, then as many LOW. *)
Lemma report_priority_runs
    (targets : list string)
    (to_datetime : date_format → list string → option (list (option Z)))
    (concat_dtype : dtype → list (option Z) → dtype)
    (slot : list string → list string → string → Z)
    (response : sheet_response) (report_exception : option exception)
    (today : Z)
    (rows : list SiteStatus) (stats : summary_stats) :
  analyze_site_visits_from_sheets targets to_datetime concat_dtype slot
    response report_exception today
  = Returns (rows, stats) →
  Priority <$> rows
  = (replicate (High_Priority stats) HIGH
     ++ replicate (Medium_Priority stats) MEDIUM
     ++ replicate (Low_Priority stats) LOW)%list.
Proof.
  intros Hrun. apply analyze_Returns in Hrun as (df & sites & cells & dates & H).
  destruct H as (_ & _ & _ & _ & Heq & _).
  assert (rows = (analyze_frame targets concat_dtype slot sites dates today).1) as Hrows
    by by rewrite <- Heq.
  assert (stats = summarize rows) as ->.
  { rewrite Hrows, <- analyze_frame_stats. by rewrite <- Heq. }
  apply sorted_priority_runs. rewrite Hrows. apply analyze_frame_sorted.
Qed.

(** *** The cells of the report *)

Section ReportFacts.

Context (strftime : Z → string).

(** The cells of a row in the report of a run that returns.  A row without
    a visit date shows [No Data] for the date; its cell for the days shows
    [No Data] when the row has the 999 days of a site without a record,
    and holds NaN when the row has no number of days.  A row with a visit
    date shows the formatted date, and shows [No Data] for the days exactly
    when the visit is 999 days old. *)
Theorem report_No_Data_cells
    (targets : list string)
    (to_datetime : date_format → list string → option (list (option Z)))
    (concat_dtype : dtype → list (option Z) → dtype)
    (slot : list string → list string → string → Z)
    (response : sheet_response) (report_exception : option exception)
    (today : Z) (rows : list SiteStatus) (stats : summary_stats)
    (r : SiteStatus) :
  analyze_site_visits_from_sheets targets to_datetime concat_dtype slot
    response report_exception today
  = Returns (rows, stats) →
  r ∈ rows →
  let o := format_output_row strftime r in
  (¬ has_data r →
   out_Last_Visit_Date o = "No Data"
   ∧ ((Days_Since_Visit r = Some 999
       ∧ out_Days_Since_Visit o = Text "No Data")
      ∨ (Days_Since_Visit r = None ∧ out_Days_Since_Visit o = NaN)))
  ∧ (∀ d, Last_Visit_Date r = Some d →
          out_Last_Visit_Date o = strftime d
          ∧ ∃ days,
              Days_Since_Visit r = Some days
              ∧ (out_Days_Since_Visit o = Text "No Data" ↔ days = 999)
              ∧ (days ≠ 999 → out_Days_Since_Visit o = Number days)).
Proof.
  intros Hrun Hin o.
  apply analyze_Returns in Hrun as (df & sites & cells & dates & H).
  destruct H as (_ & _ & _ & _ & Heq & _).
  assert (rows = (analyze_frame targets concat_dtype slot sites dates today).1)
    as Hrows by by rewrite <- Heq.
  rewrite Hrows in Hin. unfold o, format_output_row.
  apply rows_elem_of in Hin as [(Hr & _)|(Hr & _)]; rewrite Hr;
    cbn [visited_row new_row Last_Visit_Date Days_Since_Visit Site fst snd
         out_Last_Visit_Date out_Days_Since_Visit].
  - destruct (series_max _) as [m|];
      cbn [fmap option_fmap option_map]; split.
    + intros Hno. exfalso. apply Hno. by eexists.
    + intros d [= <-]. split; [done|]. eexists. split; [done|].
      destruct (Z.eqb_spec (Timedelta_days (today - m)) 999); split;
        done.
    + intros _. split; [done|]. by right.
    + done.
  - split; [|done]. intros _. split; [done|]. by left.
Qed.

End ReportFacts.

Lemma report_No_Data_cells_witness :
  let r := {| Site := "HOOK"; Last_Visit_Date := None;
              Days_Since_Visit := None; Visit_Required := false;
              Priority := LOW |} in
  let o := format_output_row (λ _, "2024-06-01") r in
  r ∈ blank_date_rows
  ∧ (¬ has_data r →
     out_Last_Visit_Date o = "No Data"
     ∧ ((Days_Since_Visit r = Some 999
         ∧ out_Days_Since_Visit o = Text "No Data")
        ∨ (Days_Since_Visit r = None ∧ out_Days_Since_Visit o = NaN)))
  ∧ (∀ d, Last_Visit_Date r = Some d →
          out_Last_Visit_Date o = (λ _ : Z, "2024-06-01") d
          ∧ ∃ days,
              Days_Since_Visit r = Some days
              ∧ (out_Days_Since_Visit o = Text "No Data" ↔ days = 999)
              ∧ (days ≠ 999 → out_Days_Since_Visit o = Number days)).
Proof.
  intros r o. split; [compute_done|].
  apply (report_No_Data_cells (λ _, "2024-06-01") TARGET_SITES
           example_to_datetime lenient_concat_dtype example_slot
           (Sheet_records blank_date_df) None example_today blank_date_rows
           (summarize blank_date_rows) r).
  - vm_compute; reflexivity.
  - compute_done.
Defined.


(** *** The colours of the rows *)

Lemma fill_row_lookup (fills : gmap (nat * nat) PatternFill)
    (row_idx ncols : nat) (fill : PatternFill) (r c : nat) :
  fill_row fills row_idx ncols fill !! (r, c)
  = if decide (r = row_idx ∧ (1 ≤ c ≤ ncols)%nat) then Some fill
    else fills !! (r, c).
Proof.
  unfold fill_row. induction ncols as [|n IH].
  - cbn [seq foldl]. case_decide; [lia|done].
  - rewrite seq_S, foldl_app. cbn [foldl Nat.add]. rewrite lookup_insert, IH.
    clear IH.
    destruct (decide ((row_idx, S n) = (r, c))) as [[= <- <-]|Hne].
    + case_decide; [done|lia].
    + repeat case_decide; try done; try lia.
      destruct_and!. subst r.
      destruct (decide (c = S n)) as [->|]; [done|lia].
Qed.

Lemma color_rows_step (df : list OutputRow)
    (fills : gmap (nat * nat) PatternFill) (row_idx r c : nat) :
  match out_Priority <$> df !! (row_idx - 2)%nat with
  | Some HIGH => fill_row fills row_idx (length column_order) red_fill
  | Some MEDIUM => fill_row fills row_idx (length column_order) yellow_fill
  | _ => fills
  end !! (r, c)
  = match (if decide (r = row_idx ∧ (1 ≤ c ≤ 5)%nat)
           then df !! (row_idx - 2)%nat ≫= (fill_of_priority ∘ out_Priority)
           else None) with
    | Some fill => Some fill
    | None => fills !! (r, c)
    end.
Proof.
  destruct (df !! (row_idx - 2)%nat) as [o|]; simpl.
  - destruct (out_Priority o); simpl; rewrite ?fill_row_lookup;
      by destruct (decide (r = row_idx ∧ (1 ≤ c ≤ 5)%nat)).
  - by destruct (decide (r = row_idx ∧ (1 ≤ c ≤ 5)%nat)).
Qed.

Lemma color_rows_foldl (df : list OutputRow) (idxs : list nat)
    (fills : gmap (nat * nat) PatternFill) (r c : nat) :
  foldl (λ fills row_idx,
           match out_Priority <$> df !! (row_idx - 2)%nat with
           | Some HIGH => fill_row fills row_idx (length column_order) red_fill
           | Some MEDIUM =>
               fill_row fills row_idx (length column_order) yellow_fill
           | _ => fills
           end) fills idxs !! (r, c)
  = match (if decide (r ∈ idxs ∧ (1 ≤ c ≤ 5)%nat)
           then df !! (r - 2)%nat ≫= (fill_of_priority ∘ out_Priority)
           else None) with
    | Some fill => Some fill
    | None => fills !! (r, c)
    end.
Proof.
  revert fills. induction idxs as [|i idxs IH]; intros fills.
  - cbn [foldl]. case_decide as Hin; [|done].
    destruct Hin as [Hin _]. by apply elem_of_nil in Hin.
  - cbn [foldl]. rewrite IH, color_rows_step. clear IH.
    destruct (decide (r ∈ idxs ∧ (1 ≤ c ≤ 5)%nat)) as [Hin|Hin];
      destruct (decide (r = i ∧ (1 ≤ c ≤ 5)%nat)) as [Hi|Hi];
      destruct (decide (r ∈ i :: idxs ∧ (1 ≤ c ≤ 5)%nat)) as [Hc|Hc];
      try (destruct Hi as [-> ?]);
      try (by destruct (df !! (_ - 2)%nat ≫= (fill_of_priority ∘ out_Priority)));
      try done; exfalso; rewrite elem_of_cons in Hc; intuition auto.
Qed.

Lemma color_rows_cell (df : list OutputRow) (r c : nat) :
  color_rows df !! (r, c)
  = if decide ((2 ≤ r)%nat ∧ (1 ≤ c ≤ 5)%nat)
    then df !! (r - 2)%nat ≫= (fill_of_priority ∘ out_Priority)
    else None.
Proof.
  unfold color_rows. rewrite color_rows_foldl, lookup_empty.
  destruct (decide (r ∈ seq 2 (length df) ∧ (1 ≤ c ≤ 5)%nat)) as [[Hin Hc]|Hn].
  - apply elem_of_seq in Hin. rewrite decide_True by lia.
    by destruct (df !! (r - 2)%nat ≫= (fill_of_priority ∘ out_Priority)).
  - destruct (decide ((2 ≤ r)%nat ∧ (1 ≤ c ≤ 5)%nat)) as [[Hr Hc]|]; [|done].
    rewrite lookup_ge_None_2; [done|].
    destruct (decide (r < 2 + length df)%nat); [|lia].
    exfalso. apply Hn. split; [|done]. apply elem_of_seq. lia.
Qed.

(** The colouring of a worksheet: the row of the [i]-th site, which is row
    [i + 2], is red in all five columns when the priority is HIGH, yellow
    when it is MEDIUM and without fill when it is LOW; the header row, the
    cells right of the fifth column and the rows below the table have no
    fill. *)
Theorem color_rows_by_priority (df : list OutputRow) :
  (∀ i o c, df !! i = Some o → (1 ≤ c ≤ 5)%nat →
            color_rows df !! ((i + 2)%nat, c)
            = match out_Priority o with
              | HIGH => Some red_fill
              | MEDIUM => Some yellow_fill
              | LOW => None
              end)
  ∧ (∀ r c, (r < 2)%nat ∨ (2 + length df ≤ r)%nat ∨ c = O ∨ (5 < c)%nat →
            color_rows df !! (r, c) = None).
Proof.
  split.
  - intros i o c Ho Hc. rewrite color_rows_cell, decide_True by lia.
    replace (i + 2 - 2)%nat with i by lia. rewrite Ho. simpl.
    by destruct (out_Priority o).
  - intros r c Hout. rewrite color_rows_cell.
    case_decide as Hin; [|done].
    rewrite lookup_ge_None_2; [done|]. lia.
Qed.

Lemma runs_lookup (h m l i : nat) :
  (replicate h HIGH ++ replicate m MEDIUM ++ replicate l LOW)%list !! i
  = if decide (i < h)%nat then Some HIGH
    else if decide (i < h + m)%nat then Some MEDIUM
    else if decide (i < h + m + l)%nat then Some LOW
    else None.
Proof.
  destruct (decide (i < h)%nat).
  - rewrite lookup_app_l by (rewrite length_replicate; lia).
    by apply lookup_replicate_2.
  - rewrite lookup_app_r by (rewrite length_replicate; lia).
    rewrite length_replicate. destruct (decide (i < h + m)%nat).
    + rewrite lookup_app_l by (rewrite length_replicate; lia).
      apply lookup_replicate_2. lia.
    + rewrite lookup_app_r by (rewrite length_replicate; lia).
      rewrite length_replicate. destruct (decide (i < h + m + l)%nat).
      * apply lookup_replicate_2. lia.
      * apply lookup_ge_None_2. rewrite length_replicate. lia.
Qed.

Lemma format_output_Priority (strftime : Z → string)
    (rows : list SiteStatus) :
  out_Priority <$> format_output strftime rows = Priority <$> rows.
Proof. unfold format_output. by rewrite <- list_fmap_compose. Qed.

(** On the main sheet of a result the rows below the header are red for as
    many rows as the summary counts sites of priority HIGH, then yellow for
    as many rows as it counts sites of priority MEDIUM, and without fill
    from there on. *)
Theorem main_sheet_colours
    (strftime : Z → string) (targets : list string)
    (to_datetime : date_format → list string → option (list (option Z)))
    (concat_dtype : dtype → list (option Z) → dtype)
    (slot : list string → list string → string → Z)
    (response : sheet_response) (report_exception : option exception)
    (today : Z)
    (rows : list SiteStatus) (stats : summary_stats) (r c : nat) :
  analyze_site_visits_from_sheets targets to_datetime concat_dtype slot
    response report_exception today
  = Returns (rows, stats) →
  color_rows (format_output strftime rows) !! (r, c)
  = if decide ((1 ≤ c ≤ 5)%nat ∧ (2 ≤ r < 2 + High_Priority stats)%nat)
    then Some red_fill
    else if decide ((1 ≤ c ≤ 5)%nat
                    ∧ (2 + High_Priority stats ≤ r
                       < 2 + High_Priority stats + Medium_Priority stats)%nat)
    then Some yellow_fill
    else None.
Proof.
  intros Hrun. rewrite color_rows_cell.
  pose proof (report_priority_runs targets to_datetime concat_dtype slot
                response report_exception today rows stats Hrun) as Hruns.
  assert (format_output strftime rows !! (r - 2)%nat
          ≫= (fill_of_priority ∘ out_Priority)
          = ((Priority <$> rows) !! (r - 2)%nat) ≫= fill_of_priority) as ->.
  { rewrite <- (format_output_Priority strftime), list_lookup_fmap.
    by destruct (format_output strftime rows !! (r - 2)%nat). }
  rewrite Hruns, runs_lookup.
  repeat case_decide; simpl; try done; lia.
Qed.

Lemma main_sheet_colours_witness :
  analyze_site_visits_from_sheets TARGET_SITES example_to_datetime
    lenient_concat_dtype example_slot (Sheet_records example_df) None
    example_today
  = Returns (example_rows, example_stats)
  ∧ color_rows (format_output (λ _, "2024-06-01") example_rows)
      !! (23%nat, 4%nat)
    = if decide ((1 ≤ 4 ≤ 5)%nat
                 ∧ (2 ≤ 23 < 2 + High_Priority example_stats)%nat)
      then Some red_fill
      else if decide ((1 ≤ 4 ≤ 5)%nat
                      ∧ (2 + High_Priority example_stats ≤ 23
                         < 2 + High_Priority example_stats
                           + Medium_Priority example_stats)%nat)
      then Some yellow_fill
      else None.
Proof.
  split; [vm_compute; reflexivity|].
  apply (main_sheet_colours (λ _, "2024-06-01") TARGET_SITES
           example_to_datetime lenient_concat_dtype example_slot
           (Sheet_records example_df) None example_today example_rows example_stats 23 4).
  vm_compute; reflexivity.
Defined.

(** *** The sheet of the priority sites *)

Lemma filter_fmap_comm {A B : Type} (f : A → B) (P : B → Prop)
    `{!∀ y, Decision (P y)} (l : list A) :
  filter P (f <$> l) = f <$> filter (λ x, P (f x)) l.
Proof.
  induction l as [|x l IH]; [done|].
  rewrite fmap_cons, !filter_cons, IH. by destruct (decide (P (f x))).
Qed.

Lemma filter_not_LOW_nil (l : list SiteStatus) :
  Forall (λ r, Priority r = LOW) l →
  filter (λ r, Priority r ∈ [HIGH; MEDIUM]) l = [].
Proof.
  induction 1 as [|x l Hx _ IH]; [done|].
  rewrite filter_cons, decide_False; [done|].
  rewrite Hx, !elem_of_cons, elem_of_nil. by intros [|[|]].
Qed.

(** In report order the rows of priority HIGH or MEDIUM are the first rows
    of the list. *)
Lemma sorted_filter_take (l : list SiteStatus) :
  StronglySorted in_report_order l →
  filter (λ r, Priority r ∈ [HIGH; MEDIUM]) l
  = take (length (filter (λ r, Priority r = HIGH) l)
          + length (filter (λ r, Priority r = MEDIUM) l)) l.
Proof.
  induction 1 as [|x l Hs IH Hx]; [done|].
  assert (Forall (λ r, priority_order (Priority x)
                       ≤ priority_order (Priority r)) l) as Hrank.
  { eapply Forall_impl; [exact Hx|]. intros r [?|[? _]]; lia. }
  rewrite !filter_cons. destruct (Priority x) eqn:Hp.
  - rewrite decide_True by (rewrite !elem_of_cons; auto).
    rewrite decide_True, decide_False by done. simpl. by rewrite IH.
  - rewrite decide_True by (rewrite !elem_of_cons; auto).
    rewrite decide_False, decide_True by done.
    cbn [length]. rewrite Nat.add_succ_r. cbn [take]. by rewrite IH.
  - rewrite decide_False
      by (rewrite !elem_of_cons, elem_of_nil; by intros [|[|]]).
    rewrite !decide_False by done.
    assert (Forall (λ r, Priority r = LOW) l) as Hlow.
    { eapply Forall_impl; [exact Hrank|]. intros r Hr. simpl in Hr.
      destruct (Priority r); simpl in Hr; [lia..|done]. }
    rewrite (filter_not_LOW_nil l Hlow).
    rewrite (filter_priority_nil l HIGH), (filter_priority_nil l MEDIUM);
      [done| |];
      (eapply Forall_impl; [exact Hlow|]; intros r Hr; by rewrite Hr).
Qed.

(** The sheet of the priority sites is the top of the main sheet: its rows
    are the first rows of the main sheet, as many as the summary counts
    sites of priority HIGH and MEDIUM, in the same order. *)
Theorem priority_sites_top_of_main_sheet
    (strftime : Z → string) (targets : list string)
    (to_datetime : date_format → list string → option (list (option Z)))
    (concat_dtype : dtype → list (option Z) → dtype)
    (slot : list string → list string → string → Z)
    (response : sheet_response) (report_exception : option exception)
    (today : Z)
    (rows : list SiteStatus) (stats : summary_stats) :
  analyze_site_visits_from_sheets targets to_datetime concat_dtype slot
    response report_exception today
  = Returns (rows, stats) →
  priority_sites (format_output strftime rows)
  = take (High_Priority stats + Medium_Priority stats)
      (format_output strftime rows).
Proof.
  intros Hrun. apply analyze_Returns in Hrun as (df & sites & cells & dates & H).
  destruct H as (_ & _ & _ & _ & Heq & _).
  assert (rows = (analyze_frame targets concat_dtype slot sites dates today).1) as Hrows
    by by rewrite <- Heq.
  assert (stats = summarize rows) as ->.
  { rewrite Hrows, <- analyze_frame_stats. by rewrite <- Heq. }
  unfold priority_sites, format_output.
  rewrite (filter_fmap_comm (format_output_row strftime)). simpl.
  rewrite sorted_filter_take by (rewrite Hrows; apply analyze_frame_sorted).
  by rewrite fmap_take.
Qed.

Lemma priority_sites_top_of_main_sheet_witness :
  analyze_site_visits_from_sheets TARGET_SITES example_to_datetime
    lenient_concat_dtype example_slot (Sheet_records example_df) None
    example_today
  = Returns (example_rows, example_stats)
  ∧ priority_sites (format_output (λ _, "2024-06-01") example_rows)
    = take (High_Priority example_stats + Medium_Priority example_stats)
        (format_output (λ _, "2024-06-01") example_rows).
Proof.
  split; [vm_compute; reflexivity|].
  apply (priority_sites_top_of_main_sheet (λ _, "2024-06-01") TARGET_SITES
           example_to_datetime lenient_concat_dtype example_slot
           (Sheet_records example_df) None example_today example_rows example_stats).
  vm_compute; reflexivity.
Defined.

(** On the sheet of the priority sites every row of a site is coloured, red
    or yellow, in all five columns: the loop never skips a row there. *)
Theorem priority_sites_all_coloured (output_df : list OutputRow) (r c : nat) :
  (2 ≤ r < 2 + length (priority_sites output_df))%nat →
  (1 ≤ c ≤ 5)%nat →
  color_rows (priority_sites output_df) !! (r, c) = Some red_fill
  ∨ color_rows (priority_sites output_df) !! (r, c) = Some yellow_fill.
Proof.
  intros Hr Hc. rewrite color_rows_cell, decide_True by lia.
  destruct (priority_sites output_df !! (r - 2)%nat) as [o|] eqn:Ho.
  - apply list_elem_of_lookup_2, list_elem_of_filter in Ho as [Hp _].
    simpl. rewrite !elem_of_cons, elem_of_nil in Hp.
    destruct Hp as [->|[->|[]]]; auto.
  - apply lookup_ge_None in Ho. lia.
Qed.

Lemma priority_sites_all_coloured_witness :
  let output_df := format_output (λ _, "2024-06-01") example_rows in
  (2 ≤ 23 < 2 + length (priority_sites output_df))%nat
  ∧ (1 ≤ 4 ≤ 5)%nat
  ∧ (color_rows (priority_sites output_df) !! (23%nat, 4%nat)
     = Some red_fill
     ∨ color_rows (priority_sites output_df) !! (23%nat, 4%nat)
       = Some yellow_fill).
Proof.
  intros output_df.
  assert (2 ≤ 23 < 2 + length (priority_sites output_df))%nat as Hr
    by (vm_compute; lia).
  assert (1 ≤ 4 ≤ 5)%nat as Hc by lia.
  split; [exact Hr|]. split; [exact Hc|].
  exact (priority_sites_all_coloured output_df 23 4 Hr Hc).
Defined.

(** *** The width of a column *)

Lemma max_length_fold (column : list string) (start : nat) :
  let max_length :=
    foldl (λ max_length value,
             if (max_length <? String.length value)%nat
             then String.length value else max_length) start column in
  (start ≤ max_length)%nat
  ∧ Forall (λ value, (String.length value ≤ max_length)%nat) column
  ∧ (max_length = start
     ∨ ∃ value, value ∈ column ∧ max_length = String.length value).
Proof.
  revert start. induction column as [|v column IH]; intros start; simpl.
  - split_and!; [done|constructor|by left].
  - destruct (IH (if (start <? String.length v)%nat
                  then String.length v else start)) as (Hge & Hall & Hwho).
    destruct (Nat.ltb_spec start (String.length v)).
    + split_and!; [lia|constructor; [lia|done]|]. right.
      destruct Hwho as [->|(w & Hw & ->)].
      * exists v. split; [apply list_elem_of_here|done].
      * exists w. split; [by apply list_elem_of_further|done].
    + split_and!; [lia|constructor; [lia|done]|].
      destruct Hwho as [->|(w & Hw & ->)]; [by left|]. right.
      exists w. split; [by apply list_elem_of_further|done].
Qed.

(** The width of a column is between 2 and 50; below 50 it is the length of
    the longest text of the column plus 2, so that every text fits with two
    characters to spare. *)
Theorem adjusted_width_bounds (column : list string) :
  (2 ≤ adjusted_width column ≤ 50)%nat
  ∧ (∀ value, value ∈ column →
              (String.length value + 2 ≤ adjusted_width column)%nat
              ∨ adjusted_width column = 50%nat)
  ∧ (adjusted_width column = 50%nat
     ∨ (adjusted_width column = 2%nat
        ∧ ∀ value, value ∈ column → value = "")
     ∨ ∃ value, value ∈ column
                ∧ adjusted_width column = (String.length value + 2)%nat).
Proof.
  unfold adjusted_width.
  destruct (max_length_fold column O) as (_ & Hall & Hwho).
  set (max_length :=
         foldl (λ max_length value,
                  if (max_length <? String.length value)%nat
                  then String.length value else max_length) O column) in *.
  rewrite Forall_forall in Hall. split; [lia|]. split.
  - intros value Hin. specialize (Hall value Hin). lia.
  - destruct (decide (50 ≤ max_length + 2)%nat); [left; lia|].
    right. destruct Hwho as [H0|(w & Hw & Hlen)].
    + left. split; [lia|]. intros value Hin. specialize (Hall value Hin).
      destruct value; [done|]. simpl in Hall. lia.
    + right. exists w. split; [done|lia].
Qed.

(** ** The maximum of the summary *)

(** The maximum of the summary, when there is one, is below 999 and is the
    number of days of a site with a visit date, and no site with fewer than
    999 days has more days; there is no maximum, and no mean, exactly when
    no site has a number of days below 999: each site has 999 days or
    more, or no number of days. *)
Theorem summary_maximum
    (targets : list string)
    (to_datetime : date_format → list string → option (list (option Z)))
    (concat_dtype : dtype → list (option Z) → dtype)
    (slot : list string → list string → string → Z)
    (response : sheet_response) (report_exception : option exception)
    (today : Z) (rows : list SiteStatus) (stats : summary_stats) :
  analyze_site_visits_from_sheets targets to_datetime concat_dtype slot
    response report_exception today
  = Returns (rows, stats) →
  (∀ m, Maximum_Days_Since_Visit stats = Some m →
        m < 999
        ∧ (∃ r, r ∈ rows ∧ has_data r ∧ Days_Since_Visit r = Some m)
        ∧ ∀ r days, r ∈ rows → Days_Since_Visit r = Some days →
                    days < 999 → days ≤ m)
  ∧ (Maximum_Days_Since_Visit stats = None ↔
     ∀ r days, r ∈ rows → Days_Since_Visit r = Some days → 999 ≤ days)
  ∧ (Average_Days_Since_Visit stats = None ↔
     Maximum_Days_Since_Visit stats = None).
Proof.
  intros Hrun. apply analyze_Returns in Hrun as (df & sites & cells & dates & H).
  destruct H as (_ & _ & _ & _ & Heq & _).
  assert (rows = (analyze_frame targets concat_dtype slot sites dates today).1)
    as Hrows by by rewrite <- Heq.
  assert (stats = summarize rows) as ->.
  { rewrite Hrows, <- analyze_frame_stats. by rewrite <- Heq. }
  unfold summarize.
  cbn [Maximum_Days_Since_Visit Average_Days_Since_Visit].
  set (below := filter (λ r, days_lt (Days_Since_Visit r) 999) rows).
  assert (∀ r days, r ∈ rows → Days_Since_Visit r = Some days →
                    days < 999 → days ∈ omap Days_Since_Visit below)
    as Hbelow.
  { intros r days Hr Hd Hlt. apply list_elem_of_omap. exists r.
    split; [|done]. apply list_elem_of_filter. by rewrite Hd. }
  split_and!.
  - intros m Hm. apply series_max_Some in Hm as [Hin Hle].
    apply list_elem_of_omap in Hin as (r & Hr & Hd).
    apply list_elem_of_filter in Hr as [Hlt Hr]. rewrite Hd in Hlt.
    split_and!; [done| |].
    + exists r. split_and!; [done| |done].
      rewrite Hrows in Hr.
      apply rows_elem_of in Hr as [(Hr & _)|(Hr & _)]; rewrite Hr in Hd |- *.
      * unfold has_data. cbn [visited_row Last_Visit_Date Days_Since_Visit
                                snd] in *.
        by destruct (series_max _).
      * simpl in Hd. injection Hd as <-. simpl in Hlt. lia.
    + intros r' days Hr' Hd' Hlt'. rewrite Forall_forall in Hle. apply Hle.
      by eapply Hbelow.
  - rewrite series_max_None. split.
    + intros Hnil r days Hr Hd.
      destruct (decide (days < 999)) as [Hlt|]; [|lia].
      pose proof (Hbelow r days Hr Hd Hlt) as Hin.
      rewrite Hnil in Hin. by apply elem_of_nil in Hin.
    + intros Hall. apply elem_of_nil_inv. intros days Hin.
      apply list_elem_of_omap in Hin as (r & Hr & Hd).
      apply list_elem_of_filter in Hr as [Hlt Hr]. rewrite Hd in Hlt.
      specialize (Hall r days Hr Hd). simpl in Hlt. lia.
  - by destruct (omap Days_Since_Visit below).
Qed.

Lemma summary_maximum_witness :
  analyze_site_visits_from_sheets TARGET_SITES example_to_datetime
    lenient_concat_dtype example_slot (Sheet_records blank_date_df) None
    example_today
  = Returns (blank_date_rows, summarize blank_date_rows)
  ∧ Maximum_Days_Since_Visit (summarize blank_date_rows) = Some 61
  ∧ (∀ m, Maximum_Days_Since_Visit (summarize blank_date_rows) = Some m →
          m < 999
          ∧ (∃ r, r ∈ blank_date_rows ∧ has_data r
                  ∧ Days_Since_Visit r = Some m)
          ∧ ∀ r days, r ∈ blank_date_rows → Days_Since_Visit r = Some days →
                      days < 999 → days ≤ m)
  ∧ (Maximum_Days_Since_Visit (summarize blank_date_rows) = None ↔
     ∀ r days, r ∈ blank_date_rows → Days_Since_Visit r = Some days →
               999 ≤ days)
  ∧ (Average_Days_Since_Visit (summarize blank_date_rows) = None ↔
     Maximum_Days_Since_Visit (summarize blank_date_rows) = None).
Proof.
  split; [vm_compute; reflexivity|]. split; [vm_compute; reflexivity|].
  apply (summary_maximum TARGET_SITES example_to_datetime
           lenient_concat_dtype example_slot (Sheet_records blank_date_df)
           None example_today blank_date_rows (summarize blank_date_rows)).
  vm_compute; reflexivity.
Defined.

(** ** The priority breakdown *)

Lemma sort_priority_names (ps : list priority) :
  NoDup ps →
  stable_sort (λ a b, String.leb (priority_name a) (priority_name b)) ps
  = filter (λ p, p ∈ ps) [HIGH; LOW; MEDIUM].
Proof.
  intros Hnd.
  destruct ps as [|a [|b [|c [|d ps]]]].
  - done.
  - destruct a; vm_compute; reflexivity.
  - destruct a, b; try (vm_compute; reflexivity);
      exfalso; revert Hnd; apply (bool_decide_eq_false_1 (NoDup _));
      vm_compute; reflexivity.
  - destruct a, b, c; try (vm_compute; reflexivity);
      exfalso; revert Hnd; apply (bool_decide_eq_false_1 (NoDup _));
      vm_compute; reflexivity.
  - assert (NoDup [a; b; c; d]) as Hfour.
    { change (a :: b :: c :: d :: ps) with ([a; b; c; d] ++ ps)%list in Hnd.
      by apply NoDup_app in Hnd as [? _]. }
    exfalso; revert Hfour; destruct a, b, c, d;
      apply (bool_decide_eq_false_1 (NoDup _)); vm_compute; reflexivity.
Qed.

Lemma filter_Forall {A : Type} (P : A → Prop) `{!∀ x, Decision (P x)}
    (l : list A) :
  Forall P l → filter P l = l.
Proof.
  induction 1 as [|x l Hx _ IH]; [done|].
  by rewrite filter_cons, decide_True, IH.
Qed.

Lemma priority_breakdown_keys (l : list SiteStatus) :
  bd_Priority <$> priority_breakdown l
  = filter (λ p, p ∈ Priority <$> l) [HIGH; LOW; MEDIUM].
Proof.
  unfold priority_breakdown.
  assert (∀ (g : priority → BreakdownRow) (ps : list priority),
            (∀ p, bd_Priority (g p) = p) → bd_Priority <$> (g <$> ps) = ps)
    as Hproj.
  { intros g ps Hg. induction ps as [|p ps IH]; [done|].
    by rewrite !fmap_cons, Hg, IH. }
  rewrite Hproj by done.
  rewrite sort_priority_names by apply NoDup_remove_dups.
  apply list_filter_iff. intros p. apply elem_of_remove_dups.
Qed.

(** The breakdown sheet has one row for each priority that occurs among the
    sites, in the order HIGH, LOW, MEDIUM of their names.  The count of a
    row and the number of the sites of its priority that have no number of
    days add up to the count that the summary gives for the priority; only
    sites of priority LOW have no number of days, so that the counts of
    HIGH and MEDIUM are those of the summary, and at least 1. *)
Theorem priority_breakdown_groups
    (targets : list string)
    (to_datetime : date_format → list string → option (list (option Z)))
    (concat_dtype : dtype → list (option Z) → dtype)
    (slot : list string → list string → string → Z)
    (response : sheet_response) (report_exception : option exception)
    (today : Z) (rows : list SiteStatus) (stats : summary_stats) :
  analyze_site_visits_from_sheets targets to_datetime concat_dtype slot
    response report_exception today
  = Returns (rows, stats) →
  let summary_count p :=
    match p with
    | HIGH => High_Priority stats
    | MEDIUM => Medium_Priority stats
    | LOW => Low_Priority stats
    end in
  bd_Priority <$> priority_breakdown rows
  = filter (λ p, p ∈ Priority <$> rows) [HIGH; LOW; MEDIUM]
  ∧ ∀ b, b ∈ priority_breakdown rows →
         (bd_Count b
          + length (filter (λ r, Priority r = bd_Priority b
                                 ∧ Days_Since_Visit r = None) rows))%nat
         = summary_count (bd_Priority b)
         ∧ (bd_Priority b ≠ LOW →
            bd_Count b = summary_count (bd_Priority b)
            ∧ (1 ≤ bd_Count b)%nat).
Proof.
  intros Hrun summary_count.
  apply analyze_Returns in Hrun as (df & sites & cells & dates & H).
  destruct H as (_ & _ & _ & _ & Heq & _).
  assert (rows = (analyze_frame targets concat_dtype slot sites dates today).1)
    as Hrows by by rewrite <- Heq.
  assert (stats = summarize rows) as Hstats.
  { rewrite Hrows, <- analyze_frame_stats. by rewrite <- Heq. }
  split; [apply priority_breakdown_keys|].
  intros b Hb. unfold priority_breakdown in Hb.
  apply list_elem_of_fmap in Hb as (p & -> & Hp).
  rewrite stable_sort_elem_of, elem_of_remove_dups in Hp.
  apply list_elem_of_fmap in Hp as (r & -> & Hr).
  cbn [bd_Count bd_Priority].
  set (group := filter (λ r0, Priority r0 = Priority r) rows).
  assert (summary_count (Priority r) = length group) as Hcount.
  { unfold summary_count. rewrite Hstats. unfold summarize.
    by destruct (Priority r). }
  assert (filter (λ r0, Priority r0 = Priority r
                        ∧ Days_Since_Visit r0 = None) rows
          = filter (λ r0, ¬ is_Some (Days_Since_Visit r0)) group) as Hnan.
  { unfold group. rewrite list_filter_filter.
    apply list_filter_iff. intros r0.
    rewrite <- eq_None_not_Some. tauto. }
  rewrite Hnan, Hcount. split.
  - apply (length_filter_complement (λ r0, is_Some (Days_Since_Visit r0))).
  - intros Hlow.
    assert (filter (λ r0, is_Some (Days_Since_Visit r0)) group = group)
      as ->.
    { apply filter_Forall, Forall_forall. intros r0 Hr0.
      apply list_elem_of_filter in Hr0 as [Hp0 Hr0].
      rewrite Hrows in Hr0. apply rows_Priority in Hr0 as [Hr0 _].
      destruct (Days_Since_Visit r0); [done|].
      simpl in Hr0. congruence. }
    split; [done|].
    assert (r ∈ group) as Hin by by apply list_elem_of_filter.
    destruct group; [by apply elem_of_nil in Hin|simpl; lia].
Qed.

Lemma priority_breakdown_groups_witness :
  let summary_count p :=
    match p with
    | HIGH => High_Priority (summarize blank_date_rows)
    | MEDIUM => Medium_Priority (summarize blank_date_rows)
    | LOW => Low_Priority (summarize blank_date_rows)
    end in
  analyze_site_visits_from_sheets TARGET_SITES example_to_datetime
    lenient_concat_dtype example_slot (Sheet_records blank_date_df) None
    example_today
  = Returns (blank_date_rows, summarize blank_date_rows)
  ∧ (bd_Priority <$> priority_breakdown blank_date_rows = [HIGH; LOW]
     ∧ bd_Count <$> priority_breakdown blank_date_rows = [21%nat; 1%nat]
     ∧ Low_Priority (summarize blank_date_rows) = 2%nat)
  ∧ bd_Priority <$> priority_breakdown blank_date_rows
    = filter (λ p, p ∈ Priority <$> blank_date_rows) [HIGH; LOW; MEDIUM]
  ∧ ∀ b, b ∈ priority_breakdown blank_date_rows →
         (bd_Count b
          + length (filter (λ r, Priority r = bd_Priority b
                                 ∧ Days_Since_Visit r = None)
                      blank_date_rows))%nat
         = summary_count (bd_Priority b)
         ∧ (bd_Priority b ≠ LOW →
            bd_Count b = summary_count (bd_Priority b)
            ∧ (1 ≤ bd_Count b)%nat).
Proof.
  intros summary_count.
  split; [vm_compute; reflexivity|].
  split; [split_and!; vm_compute; reflexivity|].
  apply (priority_breakdown_groups TARGET_SITES example_to_datetime
           lenient_concat_dtype example_slot (Sheet_records blank_date_df)
           None example_today blank_date_rows (summarize blank_date_rows)).
  vm_compute; reflexivity.
Defined.
